(** * docker-k8s-helm-local-demo: the HTTP responder of [app/index.js]

    The service is one Express application: a port read once from the
    environment, two GET routes and a call to [app.listen].  The file
    embeds [app/index.js] statement by statement.  What the eighteen lines
    call but do not contain (the JavaScript operators they use, Node's
    [http] response object, Express 4.18's [res.status], [res.type],
    [res.send], its router and its final handler) is modelled in the
    modules [JS], [Node] and [Express] below, each definition naming the
    library function it follows; the package.json of the readme asks for
    express ^4.18.2, the Dockerfile for Node 18.  Four library functions
    whose results no property here depends on are left as the fields of
    [Platform].

    Node answers some requests by itself, before the application runs, and
    package parseurl reads only the targets in origin form by itself:
    [Node.emitted_as_request] and [Node.origin_form] state which requests
    the model of the application is exact for.  The port the system binds
    when it is asked for port 0 is a parameter, [Node.listening_port]. *)

From Stdlib Require Import ZArith String Ascii List Bool Lia.
From Stdlib Require Import DecimalString HexadecimalString DecimalZ DecimalPos.
From stdpp Require Import base option gmap strings.
Import ListNotations.

Local Open Scope string_scope.
Local Open Scope Z_scope.

(** ** Strings *)

Module Str.

(** The double quote, for the attribute values of the anchor. *)
Definition dquote : string := String "034"%char EmptyString.

(** The line feed. *)
Definition newline : string := String "010"%char EmptyString.

Definition is_upper (c : ascii) : bool :=
  let n := nat_of_ascii c in (Nat.leb 65 n) && (Nat.leb n 90).

Definition lower_ascii (c : ascii) : ascii :=
  if is_upper c then ascii_of_nat (nat_of_ascii c + 32) else c.

(** [String.prototype.toLowerCase] on the ASCII letters; other bytes are kept. *)
Fixpoint lower (s : string) : string :=
  match s with
  | EmptyString => EmptyString
  | String c s' => String (lower_ascii c) (lower s')
  end.

Definition is_lower (c : ascii) : bool :=
  let n := nat_of_ascii c in (Nat.leb 97 n) && (Nat.leb n 122).

Definition upper_ascii (c : ascii) : ascii :=
  if is_lower c then ascii_of_nat (nat_of_ascii c - 32) else c.

(** [String.prototype.toUpperCase] on the ASCII letters. *)
Fixpoint upper (s : string) : string :=
  match s with
  | EmptyString => EmptyString
  | String c s' => String (upper_ascii c) (upper s')
  end.

Fixpoint contains (c : ascii) (s : string) : bool :=
  match s with
  | EmptyString => false
  | String d s' => Ascii.eqb d c || contains c s'
  end.

Definition is_empty (s : string) : bool :=
  match s with EmptyString => true | String _ _ => false end.

Fixpoint ltrim (p : ascii -> bool) (s : string) : string :=
  match s with
  | EmptyString => EmptyString
  | String c s' => if p c then ltrim p s' else s
  end.

Fixpoint rtrim (p : ascii -> bool) (s : string) : string :=
  match s with
  | EmptyString => EmptyString
  | String c s' =>
      let t := rtrim p s' in
      if p c && is_empty t then EmptyString else String c t
  end.

Definition trim (p : ascii -> bool) (s : string) : string := rtrim p (ltrim p s).

(** [s.split(c)]: the pieces of [s] between the occurrences of [c]. *)
Fixpoint split (c : ascii) (s : string) : list string :=
  match s with
  | EmptyString => [EmptyString]
  | String d s' =>
      if Ascii.eqb d c then EmptyString :: split c s'
      else match split c s' with
           | [] => [String d EmptyString]
           | t :: ts => String d t :: ts
           end
  end.

(** The part of [s] before the first [c] (all of [s] when there is none). *)
Fixpoint before (c : ascii) (s : string) : string :=
  match s with
  | EmptyString => EmptyString
  | String d s' => if Ascii.eqb d c then EmptyString else String d (before c s')
  end.

(** [Some r] when [s] is [p] followed by [r]. *)
Fixpoint strip_prefix (p s : string) : option string :=
  match p, s with
  | EmptyString, _ => Some s
  | String a p', String b s' => if Ascii.eqb a b then strip_prefix p' s' else None
  | String _ _, EmptyString => None
  end.

(** The part of [s] after the last character that satisfies [p], if any. *)
Fixpoint after_last (p : ascii -> bool) (s : string) : option string :=
  match s with
  | EmptyString => None
  | String c s' =>
      match after_last p s' with
      | Some r => Some r
      | None => if p c then Some s' else None
      end
  end.

Fixpoint last_is (c : ascii) (s : string) : bool :=
  match s with
  | EmptyString => false
  | String d EmptyString => Ascii.eqb d c
  | String _ s' => last_is c s'
  end.

Fixpoint drop_last (s : string) : string :=
  match s with
  | EmptyString => EmptyString
  | String _ EmptyString => EmptyString
  | String d s' => String d (drop_last s')
  end.

(** The characters a JavaScript regular expression's [\s] accepts among the
    bytes of a header value: TAB, LF, VT, FF, CR, space and NBSP. *)
Definition is_space (c : ascii) : bool :=
  let n := nat_of_ascii c in
  (Nat.leb 9 n && Nat.leb n 13) || Nat.eqb n 32 || Nat.eqb n 160.

Definition join (sep : string) (l : list string) : string :=
  match l with
  | [] => EmptyString
  | x :: xs => fold_left (fun acc y => acc +:+ sep +:+ y) xs x
  end.

End Str.

(** ** The JavaScript values and operators the program uses *)

Module JS.

(** [process.env.PORT] is [undefined] or a string; the literal [6969] is a
    number.  Only integral numbers occur. *)
Inductive value :=
| Undefined
| Str (s : string)
| Num (n : Z).

(** ToBoolean: [undefined], the empty string and [0] are the falsy ones. *)
Definition ToBoolean (v : value) : bool :=
  match v with
  | Undefined => false
  | Str s => negb (Str.is_empty s)
  | Num n => negb (Z.eqb n 0)
  end.

(** [a || b]: the left operand when it is truthy, the right one otherwise. *)
Definition or (a b : value) : value := if ToBoolean a then a else b.

(** ToString, as a template literal applies it to [${...}]. *)
Definition ToString (v : value) : string :=
  match v with
  | Undefined => "undefined"
  | Str s => s
  | Num n => DecimalString.NilZero.string_of_int (Z.to_int n)
  end.

(** [String(n)] for a length. *)
Definition String_of_nat (n : nat) : string :=
  DecimalString.NilZero.string_of_uint (Nat.to_uint n).

(** [n.toString(16)] for a length. *)
Definition toString16 (n : nat) : string :=
  HexadecimalString.NilZero.string_of_uint (Nat.to_hex_uint n).

(** The exception the modelled calls can throw. *)
Inductive exn :=
| ERR_HTTP_HEADERS_SENT.

(** The message of the exception (its stack trace left out). *)
Definition message (e : exn) : string :=
  match e with
  | ERR_HTTP_HEADERS_SENT => "Cannot set headers after they are sent to the client"
  end.

End JS.

(** ** Library functions left open

    [sha1_base64] is the SHA-1 digest of a body in base64, cut to 27
    characters (package etag, through Node's crypto); [parse_http_date] is
    [Date.parse] with [None] for NaN; [encodeUrl] is the function of the
    package of that name; [createHtmlDocument] is the HTML page the final
    handler builds around a message. *)
Record Platform := {
  sha1_base64 : string -> string;
  parse_http_date : string -> option Z;
  encodeUrl : string -> string;
  createHtmlDocument : string -> string
}.

(** ** Node's [http] objects *)

Module Node.

(** An incoming request as Node hands it to the application: the method in
    upper case, the request target, the headers under lower-case names, and
    the payload (which nothing in the application reads). *)
Record Request := {
  req_method : string;
  req_url : string;
  req_headers : gmap string string;
  req_body : string
}.

(** What is written to the connection when a response ends.  The headers
    Node's transport adds on its own (Date, Connection, Keep-Alive) are
    not part of it. *)
Record HttpMessage := {
  msg_status : Z;
  msg_headers : gmap string string;
  msg_body : string
}.

(** The value of the application setting etag. *)
Inductive etag_setting :=
| EtagDisabled
| EtagWeak
| EtagStrong.

(** The application settings the modelled calls read ([res.app]). *)
Record Settings := {
  x_powered_by : bool;
  etag : etag_setting;
  case_sensitive_routing : bool;
  strict_routing : bool
}.

(** The response object [res]: the mutable fields the program and the
    framework touch, with the request and the settings it refers to
    ([res.req], [res.app]).  [res_sent] is filled by [res_end]; from then
    on the headers count as sent. *)
Record ServerResponse := {
  statusCode : Z;
  res_headers : gmap string string;
  res_req : Request;
  res_app : Settings;
  res_sent : option HttpMessage
}.

Definition headersSent (res : ServerResponse) : bool :=
  match res_sent res with Some _ => true | None => false end.

(** [http.createServer] gives each request a response object with status
    200, no header and nothing sent. *)
Definition new_response (app : Settings) (req : Request) : ServerResponse :=
  {| statusCode := 200; res_headers := ∅; res_req := req; res_app := app;
     res_sent := None |}.

Definition with_status (code : Z) (res : ServerResponse) : ServerResponse :=
  {| statusCode := code; res_headers := res_headers res;
     res_req := res_req res; res_app := res_app res; res_sent := res_sent res |}.

Definition with_headers (h : gmap string string) (res : ServerResponse)
  : ServerResponse :=
  {| statusCode := statusCode res; res_headers := h;
     res_req := res_req res; res_app := res_app res; res_sent := res_sent res |}.

(** How a sequence of calls on [res] completes: normally, or by an
    exception, in both cases with the response as the calls left it. *)
Inductive completion :=
| Normal (res : ServerResponse)
| Abrupt (e : JS.exn) (res : ServerResponse).

Definition bind (m : completion) (k : ServerResponse -> completion) : completion :=
  match m with
  | Normal res => k res
  | Abrupt e res => Abrupt e res
  end.

(** [res.getHeader(name)]: header names are compared in lower case. *)
Definition getHeader (name : string) (res : ServerResponse) : option string :=
  res_headers res !! Str.lower name.

(** [res.setHeader(name, value)] throws once the headers are sent. *)
Definition setHeader (name value : string) (res : ServerResponse) : completion :=
  if headersSent res then Abrupt JS.ERR_HTTP_HEADERS_SENT res
  else Normal (with_headers (<[Str.lower name := value]> (res_headers res)) res).

(** [res.removeHeader(name)] throws once the headers are sent. *)
Definition removeHeader (name : string) (res : ServerResponse) : completion :=
  if headersSent res then Abrupt JS.ERR_HTTP_HEADERS_SENT res
  else Normal (with_headers (delete (Str.lower name) (res_headers res)) res).

(** [res.end(chunk)]: status, headers and [chunk] go out; ending a response
    that has ended already changes nothing. *)
Definition res_end (chunk : string) (res : ServerResponse) : ServerResponse :=
  if headersSent res then res
  else {| statusCode := statusCode res; res_headers := res_headers res;
          res_req := res_req res; res_app := res_app res;
          res_sent := Some {| msg_status := statusCode res;
                              msg_headers := res_headers res;
                              msg_body := chunk |} |}.

(** A header value counts as present when it is a non-empty string (the
    test [!value] of the libraries). *)
Definition present (h : option string) : bool :=
  match h with
  | Some s => negb (Str.is_empty s)
  | None => false
  end.

(** [process.env.NAME]. *)
Definition env_get (env : gmap string string) (name : string) : JS.value :=
  match env !! name with
  | Some s => JS.Str s
  | None => JS.Undefined
  end.

(** The lines [console.log] has written, oldest first. *)
Definition console_log (line : string) (stdout : list string) : list string :=
  (stdout ++ [line])%list.

(** What the client gets in the end: a response, nothing yet, or a
    destroyed connection. *)
Inductive outcome :=
| Replied (m : HttpMessage)
| Pending
| Destroyed.

(** The process after start-up: listening, or gone with an exit code.  A
    listening process is recorded with the value that was handed to
    [listen], which is not always the port the system bound (see
    [listening_port]), and with the listener of the [request] event of its
    server, which Node calls with the requests it does not answer itself
    (see [emitted_as_request]). *)
Inductive process :=
| Listening (port : JS.value) (onRequest : Request -> outcome)
| Exited (code : Z).

(** An [http.Server] before it listens: its request listener, the value
    to listen on and the listeners of its two events. *)
Record Server := {
  srv_onRequest : Request -> outcome;
  srv_port : JS.value;
  listening_listeners : list (list string -> list string);
  error_listeners : list (list string -> list string)
}.

(** A run of the start-up: what became of the process, what it wrote to
    standard output, and the values it asked the system to bind, in order. *)
Record Run := {
  run_process : process;
  run_stdout : list string;
  run_binds : list JS.value
}.

(** [server.listen]: one bind of [srv_port].  [bindable] answers for the
    runtime and the operating system whether listening on that value
    succeeds.  On success the process is recorded as listening with the
    value it handed over, and the listening event runs its listeners.  On failure the error event runs its own; an
    error event without listener is an uncaught exception, which ends a Node
    process with exit code 1; a handled one leaves nothing to wait for and
    the process ends with code 0. *)
Definition server_listen (bindable : JS.value -> bool) (srv : Server) : Run :=
  if bindable (srv_port srv) then
    {| run_process := Listening (srv_port srv) (srv_onRequest srv);
       run_stdout := fold_left (fun out f => f out) (listening_listeners srv) [];
       run_binds := [srv_port srv] |}
  else
    match error_listeners srv with
    | [] => {| run_process := Exited 1; run_stdout := [];
               run_binds := [srv_port srv] |}
    | ls => {| run_process := Exited 0;
               run_stdout := fold_left (fun out f => f out) ls [];
               run_binds := [srv_port srv] |}
    end.

(** The TCP port a value handed to [listen] asks for (lib/net.js): a
    number that is not negative is the port, [undefined] stands for 0, and
    a string is read as a number, of which the model reads the decimal
    numerals without sign.  [None] is where the model reads no port: a
    negative number, a string that is no number (it names a pipe), and the
    other notations of numbers in a string. *)
Definition requested_port (v : JS.value) : option Z :=
  match v with
  | JS.Undefined => Some 0
  | JS.Num n => if 0 <=? n then Some n else None
  | JS.Str s =>
      match DecimalString.NilZero.uint_of_string s with
      | Some d => Some (Z.of_uint d)
      | None => None
      end
  end.

(** The port a successful [listen] on the value has bound: the port asked
    for, but for 0 the system picks a port that is free, [free]; a number
    above 65535 is no port. *)
Definition bound_port (free : Z) (v : JS.value) : option Z :=
  match requested_port v with
  | Some n => if n =? 0 then Some free
              else if n <=? 65535 then Some n else None
  | None => None
  end.

(** The port a process listens on, where the system picks [free] when it
    is left the choice. *)
Definition listening_port (free : Z) (p : process) : option Z :=
  match p with
  | Listening v _ => bound_port free v
  | Exited _ => None
  end.

(** [http.METHODS] of Node 18: the method tokens its parser knows. *)
Definition METHODS : list string :=
  ["ACL"; "BIND"; "CHECKOUT"; "CONNECT"; "COPY"; "DELETE"; "GET"; "HEAD";
   "LINK"; "LOCK"; "M-SEARCH"; "MERGE"; "MKACTIVITY"; "MKCALENDAR"; "MKCOL";
   "MOVE"; "NOTIFY"; "OPTIONS"; "PATCH"; "POST"; "PROPFIND"; "PROPPATCH";
   "PURGE"; "PUT"; "REBIND"; "REPORT"; "SEARCH"; "SOURCE"; "SUBSCRIBE";
   "TRACE"; "UNBIND"; "UNLINK"; "UNLOCK"; "UNSUBSCRIBE"].

(** The characters after the first of a request target that the parser
    lets through and that package parseurl reads by itself: the printable
    ASCII characters but [#]. *)
Fixpoint target_chars (s : string) : bool :=
  match s with
  | EmptyString => true
  | String c s' =>
      let n := nat_of_ascii c in
      Nat.leb 33 n && Nat.leb n 126 && negb (Nat.eqb n 35) && target_chars s'
  end.

(** A request target in origin form: a slash, then such characters.  The
    targets in absolute form, the asterisk, and the targets with a fragment
    or with blanks, which package parseurl hands to [url.parse], are not of
    this form. *)
Definition origin_form (target : string) : bool :=
  match target with
  | String c rest => Ascii.eqb c "/" && target_chars rest
  | EmptyString => false
  end.

(** The payload is the one the header fields frame: none without
    Content-Length and Transfer-Encoding, as long as Content-Length says, or
    chunked.  A message with both fields, or with another transfer coding,
    is refused by the parser. *)
Definition framed (req : Request) : bool :=
  match req_headers req !! "transfer-encoding",
        req_headers req !! "content-length" with
  | None, None => Str.is_empty (req_body req)
  | None, Some n =>
      String.eqb n (JS.String_of_nat (String.length (req_body req)))
  | Some te, None => String.eqb (Str.lower te) "chunked"
  | Some _, Some _ => false
  end.

(** The header field is in the request. *)
Definition has_header (name : string) (req : Request) : bool :=
  match req_headers req !! name with
  | Some _ => true
  | None => false
  end.

(** Conditions under which Node 18 hands a request to the listeners of the
    [request] event of the server (lib/_http_server.js), instead of
    answering it itself: the parser knows the method (a request with
    another token gets 400 Bad Request); the method is not CONNECT (without
    listener of the [connect] event the connection is closed); the target is
    in origin form; there is a Host field; there is no Expect field (an
    expectation other than 100-continue gets 417 Expectation Failed); the
    payload is framed.  Time-outs and the limit on the size of the header
    section are left out of the model. *)
Definition emitted_as_request (req : Request) : bool :=
  existsb (String.eqb (req_method req)) METHODS
  && negb (String.eqb (req_method req) "CONNECT")
  && origin_form (req_url req)
  && has_header "host" req
  && negb (has_header "expect" req)
  && framed req.

End Node.

Notation "'let*' x ':=' m 'in' k" := (Node.bind m (fun x => k))
  (at level 10, x name, m at level 100, k at level 200).

(** ** Express 4.18 *)

Module Express.
Import Node.

(** [defaultConfiguration] of lib/application.js: the header X-Powered-By
    on, weak entity tags, routing neither case sensitive nor strict. *)
Definition defaultConfiguration : Settings :=
  {| x_powered_by := true; etag := EtagWeak;
     case_sensitive_routing := false; strict_routing := false |}.

(** [mime.lookup(path)]: the extension is what follows the last dot, slash
    or backslash of [path], in lower case; the table is given on its entries
    for text, and an unknown extension has the default type. *)
Definition mime_lookup (path : string) : string :=
  let separator c := Ascii.eqb c "." || Ascii.eqb c "/" || Ascii.eqb c "092" in
  let e := Str.lower (match Str.after_last separator path with
                      | Some ext => ext
                      | None => path
                      end) in
  if String.eqb e "html" || String.eqb e "htm" then "text/html"
  else if String.eqb e "txt" || String.eqb e "text" then "text/plain"
  else if String.eqb e "json" then "application/json"
  else "application/octet-stream".

(** [mime.charsets.lookup]: UTF-8 for the types matching
    [/^text\/|^application\/(javascript|json)/]. *)
Definition charsets_lookup (mimeType : string) : option string :=
  match Str.strip_prefix "text/" mimeType,
        Str.strip_prefix "application/javascript" mimeType,
        Str.strip_prefix "application/json" mimeType with
  | None, None, None => None
  | _, _, _ => Some "UTF-8"
  end.

(** The test of [charsetRegExp], [/;\s*charset\s*=/]. *)
Fixpoint has_charset_param (s : string) : bool :=
  match s with
  | EmptyString => false
  | String c s' =>
      (Ascii.eqb c ";" &&
       match Str.strip_prefix "charset" (Str.ltrim Str.is_space s') with
       | Some r => match Str.ltrim Str.is_space r with
                   | String d _ => Ascii.eqb d "="
                   | EmptyString => false
                   end
       | None => false
       end)
      || has_charset_param s'
  end.

(** [res.status(code)] of lib/response.js. *)
Definition status (code : Z) (res : ServerResponse) : ServerResponse :=
  with_status code res.

(** [res.get(field)]. *)
Definition get (field : string) (res : ServerResponse) : option string :=
  getHeader field res.

(** [res.set(field, value)]: a Content-Type without charset parameter gets
    the charset [mime] knows for its type. *)
Definition set (field value : string) (res : ServerResponse) : completion :=
  let value' :=
    if String.eqb (Str.lower field) "content-type" then
      if has_charset_param value then value
      else match charsets_lookup (Str.before ";" value) with
           | Some charset => value +:+ "; charset=" +:+ Str.lower charset
           | None => value
           end
    else value in
  setHeader field value' res.

(** [res.type(type)]: a name without slash is looked up as an extension. *)
Definition type (t : string) (res : ServerResponse) : completion :=
  let ct := if Str.contains "/" t then t else mime_lookup t in
  set "Content-Type" ct res.

(** [setCharset(type, 'utf-8')] of lib/utils.js, for a media type that has
    no parameter besides charset: the type in lower case with the charset
    parameter set. *)
Definition setCharset (t : string) : string :=
  if Str.is_empty t then t
  else Str.lower (Str.trim Str.is_space (Str.before ";" t)) +:+ "; charset=utf-8".

Section WithPlatform.
Context (pf : Platform).

(** The entity tag of package etag for a string body. *)
Definition entitytag (entity : string) : string :=
  if Str.is_empty entity
  then Str.dquote +:+ "0-2jmj7l5rSw0yVb/vlWAYkK/YBwk" +:+ Str.dquote
  else Str.dquote +:+ JS.toString16 (String.length entity) +:+ "-"
       +:+ sha1_base64 pf entity +:+ Str.dquote.

(** The compiled setting etag fn of the application. *)
Definition etag_fn (app : Settings) : option (string -> string) :=
  match etag app with
  | EtagDisabled => None
  | EtagWeak => Some (fun body => "W/" +:+ entitytag body)
  | EtagStrong => Some entitytag
  end.

(** [parseTokenList] of package fresh: the comma separated items, the
    blanks around each dropped. *)
Definition parseTokenList (s : string) : list string :=
  map (Str.trim (fun c => Ascii.eqb c " ")) (Str.split "," s).

(** The test of [/(?:^|,)\s*?no-cache\s*?(?:,|$)/] on Cache-Control. *)
Definition has_no_cache (cacheControl : string) : bool :=
  existsb (fun item => String.eqb (Str.trim Str.is_space item) "no-cache")
          (Str.split "," cacheControl).

Definition date_le (a b : option Z) : bool :=
  match a, b with
  | Some x, Some y => x <=? y
  | _, _ => false
  end.

(** [fresh(reqHeaders, resHeaders)] of package fresh 0.5.2. *)
Definition fresh (reqHeaders : gmap string string)
    (etag lastModified : option string) : bool :=
  let modifiedSince := reqHeaders !! "if-modified-since" in
  let noneMatch := reqHeaders !! "if-none-match" in
  if negb (present modifiedSince) && negb (present noneMatch) then false
  else if match reqHeaders !! "cache-control" with
          | Some cc => has_no_cache cc
          | None => false
          end then false
  else if match noneMatch with
          | Some nm =>
              if Str.is_empty nm || String.eqb nm "*" then false
              else match etag with
                   | Some tag =>
                       if Str.is_empty tag then true
                       else negb (existsb
                                    (fun m => String.eqb m tag
                                              || String.eqb m ("W/" +:+ tag)
                                              || String.eqb ("W/" +:+ m) tag)
                                    (parseTokenList nm))
                   | None => true
                   end
          | None => false
          end then false
  else if match modifiedSince with
          | Some ms =>
              negb (Str.is_empty ms) &&
              (negb (present lastModified)
               || negb (date_le (lastModified ≫= parse_http_date pf)
                                (parse_http_date pf ms)))
          | None => false
          end then false
  else true.

(** The getter [req.fresh] of lib/request.js: only a GET or HEAD whose
    response so far has a 2xx status or 304 can be fresh. *)
Definition req_fresh (req : Request) (res : ServerResponse) : bool :=
  let m := req_method req in
  if negb (String.eqb m "GET" || String.eqb m "HEAD") then false
  else
    let s := statusCode res in
    if ((200 <=? s) && (s <? 300)) || (s =? 304)
    then fresh (req_headers req) (get "ETag" res) (get "Last-Modified" res)
    else false.

(** [res.send(body)] of lib/response.js for a string [body], in the order
    of its statements: a missing Content-Type becomes html
    ([if (!this.get('Content-Type')) this.type('html')]); the charset of
    the Content-Type is set to utf-8; Content-Length; the entity tag, unless
    the response has one or the setting is off; a fresh request turns the
    status into 304 ([if (req.fresh) this.statusCode = 304]); a 204 or 304
    loses its content headers and its body, a 205 its body; a HEAD request
    gets no body. *)
Definition send (body : string) (res : ServerResponse) : completion :=
  let req := res_req res in
  let* res := (if present (get "Content-Type" res) then Normal res
               else type "html" res) in
  let* res := (match get "Content-Type" res with
               | Some t => set "Content-Type" (setCharset t) res
               | None => Normal res
               end) in
  let generateETag := negb (present (get "ETag" res)) in
  let* res := set "Content-Length" (JS.String_of_nat (String.length body)) res in
  let* res := (match etag_fn (res_app res) with
               | Some etagFn =>
                   if generateETag then set "ETag" (etagFn body) res
                   else Normal res
               | None => Normal res
               end) in
  let res := if req_fresh req res then with_status 304 res else res in
  let stripped := (statusCode res =? 204) || (statusCode res =? 304) in
  let* res := (if stripped then
                 let* res := removeHeader "Content-Type" res in
                 let* res := removeHeader "Content-Length" res in
                 removeHeader "Transfer-Encoding" res
               else Normal res) in
  let reset := statusCode res =? 205 in
  let* res := (if reset then
                 let* res := set "Content-Length" "0" res in
                 removeHeader "Transfer-Encoding" res
               else Normal res) in
  let chunk := if stripped || reset then EmptyString else body in
  if String.eqb (req_method req) "HEAD" then Normal (res_end EmptyString res)
  else Normal (res_end chunk res).

Definition outcome_of (res : ServerResponse) : outcome :=
  match res_sent res with
  | Some m => Replied m
  | None => Pending
  end.

(** [parseurl(req).pathname] for a request target in origin form
    ([origin_form]): the target up to its query string.  Package parseurl
    hands the other targets to [url.parse], which this function does not
    model: for them the statements about paths say nothing. *)
Definition getPathname (req : Request) : string := Str.before "?" (req_url req).

(** The response of package finalhandler: [send] of its index.js, after
    the headers given by the error, of which the modelled exception has
    none. *)
Definition finalhandler_write (req : Request) (code : Z) (msg : string)
    (res : ServerResponse) : completion :=
  let body := createHtmlDocument pf msg in
  let res := with_status code res in
  let* res := removeHeader "Content-Encoding" res in
  let* res := removeHeader "Content-Language" res in
  let* res := removeHeader "Content-Range" res in
  let* res := setHeader "Content-Security-Policy" "default-src 'none'" res in
  let* res := setHeader "X-Content-Type-Options" "nosniff" res in
  let* res := setHeader "Content-Type" "text/html; charset=utf-8" res in
  let* res := setHeader "Content-Length" (JS.String_of_nat (String.length body)) res in
  if String.eqb (req_method req) "HEAD" then Normal (res_end EmptyString res)
  else Normal (res_end body res).

Definition outcome_of_completion (c : completion) : outcome :=
  match c with
  | Normal res => outcome_of res
  | Abrupt _ _ => Destroyed
  end.

(** [finalhandler] without error: nothing more is done for a response in
    flight; otherwise 404 and the page naming the method and the resource. *)
Definition finalhandler_notfound (req : Request) (res : ServerResponse) : outcome :=
  if headersSent res then outcome_of res
  else outcome_of_completion
         (finalhandler_write req 404
            ("Cannot " +:+ req_method req +:+ " " +:+ encodeUrl pf (getPathname req))
            res).

(** [finalhandler] with an error that carries no status: the status of the
    response when that is an error status, 500 otherwise; the connection is
    destroyed when the headers are out already. *)
Definition finalhandler_error (e : JS.exn) (req : Request) (res : ServerResponse)
  : outcome :=
  let s := statusCode res in
  let code := if (s <? 400) || (599 <? s) then 500 else s in
  if headersSent res then Destroyed
  else outcome_of_completion (finalhandler_write req code (JS.message e) res).

(** A route handler [(req, res) => { ... }]. *)
Definition Handler : Type := Request -> ServerResponse -> completion.

(** A route of the router: its path and, per method in lower case, the
    handler registered for it. *)
Record Route := {
  route_path : string;
  route_stack : list (string * Handler)
}.

(** The application: its settings and the routes in registration order. *)
Record Application := {
  settings : Settings;
  stack : list Route
}.

(** [express()]. *)
Definition express : Application :=
  {| settings := defaultConfiguration; stack := [] |}.

(** [app.get(path, handler)]: a new route at the end of the stack. *)
Definition app_get (path : string) (handler : Handler) (app : Application)
  : Application :=
  {| settings := settings app;
     stack := (stack app ++ [{| route_path := path;
                                route_stack := [("get", handler)] |}])%list |}.

(** The match of a layer made by path-to-regexp 0.1 from a path without
    pattern characters, with [end: true]: the whole pathname, letters
    compared without case unless the routing is case sensitive, one
    trailing slash optional unless the routing is strict. *)
Definition layer_match (app : Settings) (path pathname : string) : bool :=
  let fold s := if case_sensitive_routing app then s else Str.lower s in
  let p := fold path in
  let s := fold pathname in
  if strict_routing app then String.eqb s p
  else if Str.last_is "/" path
       then String.eqb s p || String.eqb s (Str.drop_last p)
       else String.eqb s p || String.eqb s (p +:+ "/").

Definition has_handler (r : Route) (name : string) : bool :=
  existsb (fun l => String.eqb (fst l) name) (route_stack r).

(** The method a route answers for a request method: HEAD falls back to
    GET when the route has no handler for HEAD. *)
Definition route_method (r : Route) (method : string) : string :=
  let name := Str.lower method in
  if String.eqb name "head" && negb (has_handler r "head") then "get" else name.

(** [Route.prototype._handles_method]. *)
Definition handles_method (r : Route) (method : string) : bool :=
  has_handler r (route_method r method).

(** [Route.prototype._options]: the methods of the route in upper case,
    HEAD added to a route that answers GET. *)
Definition route_options (r : Route) : list string :=
  let methods := map fst (route_stack r) in
  let methods := if has_handler r "get" && negb (has_handler r "head")
                 then (methods ++ ["head"])%list else methods in
  map Str.upper methods.

(** [appendMethods]: the additions not in the list yet. *)
Definition appendMethods (l addition : list string) : list string :=
  fold_left (fun acc m => if existsb (String.eqb m) acc then acc
                          else (acc ++ [m])%list)
            addition l.

(** [Route.prototype.dispatch]: the first handler registered for the
    method runs; [None] when the route has none, and the router goes on.
    The handlers of this program take no [next] and end the response
    themselves. *)
Definition route_dispatch (r : Route) (req : Request) (res : ServerResponse)
  : option completion :=
  let m := route_method r (req_method req) in
  match find (fun l => String.eqb (fst l) m) (route_stack r) with
  | Some (_, handler) => Some (handler req res)
  | None => None
  end.

(** [sendOptionsResponse]. *)
Definition sendOptionsResponse (options : list string) (res : ServerResponse)
  : completion :=
  let body := Str.join "," options in
  let* res := set "Allow" body res in
  send body res.

(** What becomes of a request once a handler has completed: the response
    it ended, or the final handler for the exception it threw ([try]/[catch]
    of [Layer.prototype.handle_request]). *)
Definition settle (req : Request) (c : completion) : outcome :=
  match c with
  | Normal res => outcome_of res
  | Abrupt e res => finalhandler_error e req res
  end.

(** The end of the stack: an OPTIONS request for which routes were found
    is answered with their methods; everything else goes to the final
    handler. *)
Definition done (req : Request) (res : ServerResponse) (options : list string)
  : outcome :=
  if String.eqb (req_method req) "OPTIONS" && negb (Nat.eqb (length options) 0)
  then settle req (sendOptionsResponse options res)
  else finalhandler_notfound req res.

(** [next] of [Router.prototype.handle], over the routes still to try. *)
Fixpoint router_next (req : Request) (res : ServerResponse)
    (routes : list Route) (options : list string) : outcome :=
  match routes with
  | [] => done req res options
  | r :: rest =>
      if layer_match (res_app res) (route_path r) (getPathname req) then
        let has_method := handles_method r (req_method req) in
        let options' :=
          if negb has_method && String.eqb (req_method req) "OPTIONS"
          then appendMethods options (route_options r) else options in
        if negb has_method && negb (String.eqb (req_method req) "HEAD")
        then router_next req res rest options'
        else match route_dispatch r req res with
             | Some c => settle req c
             | None => router_next req res rest options'
             end
      else router_next req res rest options
  end.

(** The middleware [expressInit]: the header X-Powered-By when enabled. *)
Definition expressInit (res : ServerResponse) : ServerResponse :=
  if x_powered_by (res_app res)
  then match setHeader "X-Powered-By" "Express" res with
       | Normal res' => res'
       | Abrupt _ res' => res'
       end
  else res.

(** The response object as the routes receive it. *)
Definition initial_response (app : Settings) (req : Request) : ServerResponse :=
  expressInit (new_response app req).

(** [app.handle(req, res)]: the request goes through [expressInit] and
    then down the routes. *)
Definition handle (app : Application) (req : Request) : outcome :=
  router_next req (initial_response (settings app) req) (stack app) [].

(** [app.listen(port, callback)]: [http.createServer(app).listen(port,
    callback)]; the application answers the requests, the callback listens
    once for the listening event, and nothing listens for the error event. *)
Definition app_listen (app : Application) (port : JS.value)
    (callback : list string -> list string) : Server :=
  {| srv_onRequest := handle app; srv_port := port;
     listening_listeners := [callback]; error_listeners := [] |}.

End WithPlatform.


End Express.

(** ** app/index.js *)

Import Node Express.

(** [const port = process.env.PORT || 6969;] *)
Definition port (env : gmap string string) : JS.value :=
  JS.or (env_get env "PORT") (JS.Num 6969).

(** [const url = ...] of the handler of [/]. *)
Definition url : string :=
  "https://github.com/KashifWajid/docker-k8s-helm-local-demo".

(** [const anchor = `<a href="${url}" ...>...</a>`]. *)
Definition anchor : string :=
  "<a href=" +:+ Str.dquote +:+ url +:+ Str.dquote
  +:+ " target=" +:+ Str.dquote +:+ "_blank" +:+ Str.dquote
  +:+ " rel=" +:+ Str.dquote +:+ "noopener noreferrer" +:+ Str.dquote
  +:+ ">App 1 : docker-k8s-helm-local-demo</a>".

Section Index.
Context (pf : Platform).

(** [app.get('/', (req, res) => { ...; res.type('html').send(anchor); })] *)
Definition root_handler : Handler :=
  fun _req res =>
    let* res := type "html" res in
    send pf anchor res.

(** [app.get('/health', (req, res) => { res.status(200).send('ok'); })] *)
Definition health_handler : Handler :=
  fun _req res => send pf "ok" (status 200 res).

(** The application after the two [app.get] calls. *)
Definition app : Application :=
  app_get "/health" health_handler (app_get "/" root_handler express).

(** The listener of the [request] event of the server: what the
    application answers to a request that Node hands to it. *)
Definition serve (req : Request) : outcome := handle pf app req.

End Index.

(** The callback of [app.listen]:
    [console.log(`demo-app listening on port ${port}`)]. *)
Definition on_listening (port : JS.value) (stdout : list string) : list string :=
  console_log ("demo-app listening on port " +:+ JS.ToString port) stdout.

(** The start of the process: [port] is read once, and
    [app.listen(port, callback)] is the last statement. *)
Definition main (pf : Platform) (env : gmap string string)
    (bindable : JS.value -> bool) : Run :=
  let port := port env in
  server_listen bindable (app_listen pf (app pf) port (on_listening port)).

(** ** Vocabulary of the specification *)

(** The serialisation of an anchor element with the given attributes, in
    order, and the given link text. *)
Definition anchor_element (attrs : list (string * string)) (text : string) : string :=
  "<a"
  +:+ fold_right (fun kv acc => " " +:+ fst kv +:+ "=" +:+ Str.dquote +:+ snd kv
                                +:+ Str.dquote +:+ acc)
                 EmptyString attrs
  +:+ ">" +:+ text +:+ "</a>".


(** A status of the class 2xx. *)
Definition is_2xx (code : Z) : bool := (200 <=? code) && (code <? 300).

(** A request with method, target and headers, and no payload. *)
Definition request (method target : string) (headers : list (string * string))
  : Request :=
  {| req_method := method; req_url := target;
     req_headers := list_to_map headers; req_body := EmptyString |}.

(** A request is conditional when it carries a non-empty If-None-Match or
    If-Modified-Since header. *)
Definition conditional (req : Request) : bool :=
  present (req_headers req !! "if-none-match")
  || present (req_headers req !! "if-modified-since").

(** The Content-Type of a string body sent without another type. *)
Definition html_utf8 : string := "text/html; charset=utf-8".

(** The weak entity tag the default settings give a body. *)
Definition weak_etag (pf : Platform) (body : string) : string :=
  "W/" +:+ entitytag pf body.

(** A request revalidates a body when its conditional headers are fresh
    against the weak tag of that body and no Last-Modified. *)
Definition revalidates (pf : Platform) (req : Request) (body : string) : bool :=
  fresh pf (req_headers req) (Some (weak_etag pf body)) None.

(** The complete answer with a body: 200 and the headers of [res.send]. *)
Definition full_reply (pf : Platform) (body chunk : string) : HttpMessage :=
  {| msg_status := 200;
     msg_headers :=
       <["etag" := weak_etag pf body]>
         (<["content-length" := JS.String_of_nat (String.length body)]>
            (<["content-type" := html_utf8]>
               (<["x-powered-by" := "Express"]> ∅)));
     msg_body := chunk |}.

(** The answer to a request that revalidates the body: 304, no content
    header, no body. *)
Definition not_modified_reply (pf : Platform) (body : string) : HttpMessage :=
  {| msg_status := 304;
     msg_headers :=
       <["etag" := weak_etag pf body]> (<["x-powered-by" := "Express"]> ∅);
     msg_body := EmptyString |}.

(** The answer of a handler that sends [body], by method and freshness. *)
Definition reply_to (pf : Platform) (req : Request) (body : string) : HttpMessage :=
  if revalidates pf req body then not_modified_reply pf body
  else full_reply pf body
         (if String.eqb (req_method req) "HEAD" then EmptyString else body).

(** The method is one the two routes answer. *)
Definition get_or_head (req : Request) : bool :=
  String.eqb (req_method req) "GET" || String.eqb (req_method req) "HEAD".

(** The answer of the final handler to a request no route takes. *)
Definition not_found_reply (pf : Platform) (req : Request) : HttpMessage :=
  let page := createHtmlDocument pf
                ("Cannot " +:+ req_method req +:+ " "
                 +:+ encodeUrl pf (getPathname req)) in
  {| msg_status := 404;
     msg_headers :=
       <["content-length" := JS.String_of_nat (String.length page)]>
         (<["content-type" := html_utf8]>
            (<["x-content-type-options" := "nosniff"]>
               (<["content-security-policy" := "default-src 'none'"]>
                  (<["x-powered-by" := "Express"]> ∅))));
     msg_body := if String.eqb (req_method req) "HEAD" then EmptyString else page |}.

(** A response object in the hands of a handler: nothing sent yet, for
    request [q] under settings [a], with status [s]. *)
Definition ready (q : Request) (a : Settings) (s : Z) (res : ServerResponse) : Prop :=
  res_sent res = None /\ res_req res = q /\ res_app res = a /\ statusCode res = s.

(** The media type of a Content-Type value: what precedes its parameters,
    in lower case. *)
Definition media_type (contentType : string) : string :=
  Str.lower (Str.trim Str.is_space (Str.before ";" contentType)).

(** The link text of the anchor. *)
Definition link_text : string := "App 1 : docker-k8s-helm-local-demo".

(** The attributes of the anchor. *)
Definition anchor_attributes : list (string * string) :=
  [("href", url); ("target", "_blank"); ("rel", "noopener noreferrer")].

(** The platform functions on the inputs of the examples: the digests Node
    computes for the bodies the service sends, no date in any example, and
    the final handler's page for resource names with nothing to encode or
    escape in them. *)
Definition example_platform : Platform :=
  {| sha1_base64 := fun body =>
       if String.eqb body "ok" then "eoX0dku9ba8cNUXvu/DyeabcC+s"
       else if String.eqb body anchor then "a8jy8HqjCDFEc2Tfnq4icVmVl54"
       else if String.eqb body "GET,HEAD" then "ZRAf8oNBS3Bjb/SU2GYZCmbtmXg"
       else EmptyString;
     parse_http_date := fun _ => None;
     encodeUrl := fun u => u;
     createHtmlDocument := fun msg =>
       "<!DOCTYPE html>" +:+ Str.newline
       +:+ "<html lang=" +:+ Str.dquote +:+ "en" +:+ Str.dquote +:+ ">" +:+ Str.newline
       +:+ "<head>" +:+ Str.newline
       +:+ "<meta charset=" +:+ Str.dquote +:+ "utf-8" +:+ Str.dquote +:+ ">"
       +:+ Str.newline
       +:+ "<title>Error</title>" +:+ Str.newline
       +:+ "</head>" +:+ Str.newline
       +:+ "<body>" +:+ Str.newline
       +:+ "<pre>" +:+ msg +:+ "</pre>" +:+ Str.newline
       +:+ "</body>" +:+ Str.newline
       +:+ "</html>" +:+ Str.newline |}.

(** ** Requests and environments of the examples *)

Definition plain_health_request : Request := request "GET" "/health" [].

Definition conditional_health_request : Request :=
  request "GET" "/health" [("if-none-match", "*")].

Definition plain_root_request : Request := request "GET" "/" [].

Definition conditional_root_request : Request :=
  request "GET" "/" [("if-none-match", "*")].

Definition upper_case_health_request : Request := request "GET" "/HEALTH" [].

Definition nope_request : Request := request "GET" "/nope" [].

(** Requests as clients put them on the wire, with their Host field: of
    curl, and of the kubelet for the probes of the deployment. *)
Definition curl_request (method target : string) : Request :=
  request method target
    [("host", "localhost:6969"); ("user-agent", "curl/8.5.0"); ("accept", "*/*")].

Definition probe_request : Request :=
  request "GET" "/health"
    [("host", "10.244.0.12:6969"); ("user-agent", "kube-probe/1.29");
     ("accept", "*/*"); ("connection", "close")].

Definition port_8081_env : gmap string string := {["PORT" := "8081"]}.

Definition empty_port_env : gmap string string := {["PORT" := EmptyString]}.

Definition zero_port_env : gmap string string := {["PORT" := "0"]}.

(** ** Vocabulary of the further properties *)

(** The request with another method. *)
Definition with_method (method : string) (req : Request) : Request :=
  {| req_method := method; req_url := req_url req;
     req_headers := req_headers req; req_body := req_body req |}.

(** The router finds one of the two routes for the path of the request. *)
Definition on_a_route (req : Request) : bool :=
  layer_match defaultConfiguration "/" (getPathname req)
  || layer_match defaultConfiguration "/health" (getPathname req).

(** The method token is in upper case, as Node's parser delivers it. *)
Definition upper_case_method (req : Request) : Prop :=
  Str.upper (req_method req) = req_method req.

(** The answer the router gives by itself to an OPTIONS request on a
    route: the methods of the route, in the header Allow and in the body. *)
Definition options_reply (pf : Platform) : HttpMessage :=
  {| msg_status := 200;
     msg_headers :=
       <["etag" := weak_etag pf "GET,HEAD"]>
         (<["content-length" := "8"]>
            (<["content-type" := html_utf8]>
               (<["allow" := "GET,HEAD"]>
                  (<["x-powered-by" := "Express"]> ∅))));
     msg_body := "GET,HEAD" |}.

(** The answer of the service by method and path: the handlers for GET and
    HEAD on their routes, the list of methods for OPTIONS on a route, and
    the final handler's page for everything else. *)
Definition expected_reply (pf : Platform) (req : Request) : HttpMessage :=
  if get_or_head req then
    if layer_match defaultConfiguration "/" (getPathname req)
    then reply_to pf req anchor
    else if layer_match defaultConfiguration "/health" (getPathname req)
         then reply_to pf req "ok"
         else not_found_reply pf req
  else if String.eqb (req_method req) "OPTIONS" && on_a_route req
       then options_reply pf
       else not_found_reply pf req.

(** The application with the two [app.get] calls in the other order. *)
Definition app_swapped (pf : Platform) : Application :=
  app_get "/" (root_handler pf) (app_get "/health" (health_handler pf) express).

(** The verdict of an httpGet probe, as the deployment of the readme
    configures one on /health: a status from 200 up to 399 is a success. *)
Definition probe_succeeds (o : outcome) : bool :=
  match o with
  | Replied m => (200 <=? msg_status m) && (msg_status m <? 400)
  | Pending | Destroyed => false
  end.

(** The path of the liveness probe in k8s/deployment.yaml. *)
Definition liveness_probe_path : string := "/health".

(** The environment the Dockerfile gives the process: [ENV PORT=6969]. *)
Definition dockerfile_env : gmap string string := {["PORT" := "6969"]}.

(** The request asks for an end-to-end reload: its Cache-Control header
    has the item no-cache. *)
Definition asks_no_cache (req : Request) : bool :=
  match req_headers req !! "cache-control" with
  | Some cc => has_no_cache cc
  | None => false
  end.

(** [JSON.stringify] on the values the readme's handler builds: an object
    whose properties are strings and integral numbers. *)
Module JSON.

Inductive scalar :=
| JString (s : string)
| JNumber (n : Z).

(** The four hexadecimal digits of a control character. *)
Definition hex4 (n : nat) : string :=
  "00" +:+ (if Nat.ltb n 16 then "0" else EmptyString) +:+ JS.toString16 n.

(** QuoteJSONString, per character: the quote and the backslash get a
    backslash, the control characters their short or their numbered escape. *)
Definition quote_char (c : ascii) : string :=
  let n := nat_of_ascii c in
  if Nat.eqb n 34 then String "092" (String "034" EmptyString)
  else if Nat.eqb n 92 then String "092" (String "092" EmptyString)
  else if Nat.eqb n 8 then String "092" "b"
  else if Nat.eqb n 9 then String "092" "t"
  else if Nat.eqb n 10 then String "092" "n"
  else if Nat.eqb n 12 then String "092" "f"
  else if Nat.eqb n 13 then String "092" "r"
  else if Nat.ltb n 32 then String "092" ("u" +:+ hex4 n)
  else String c EmptyString.

Fixpoint quote_chars (s : string) : string :=
  match s with
  | EmptyString => EmptyString
  | String c s' => quote_char c +:+ quote_chars s'
  end.

Definition quote (s : string) : string :=
  Str.dquote +:+ quote_chars s +:+ Str.dquote.

Definition stringify_scalar (v : scalar) : string :=
  match v with
  | JString s => quote s
  | JNumber n => JS.ToString (JS.Num n)
  end.

(** [JSON.stringify(obj)] without replacer and indentation: the properties
    in their order, separated by commas, each a quoted key, a colon and the
    value. *)
Definition stringify (obj : list (string * scalar)) : string :=
  "{" +:+ Str.join "," (map (fun kv => quote (fst kv) +:+ ":" +:+ stringify_scalar (snd kv))
                            obj)
  +:+ "}".

End JSON.

(** The variant of index.js printed in the readme. *)
Module Readme.

(** [const port = process.env.PORT || 3000;] *)
Definition port (env : gmap string string) : JS.value :=
  JS.or (env_get env "PORT") (JS.Num 3000).

(** [res.json(obj)] of lib/response.js under the default settings (no
    replacer, no spaces, no escaping): a missing Content-Type becomes
    application/json, and the text of the object is sent. *)
Definition res_json (pf : Platform) (obj : list (string * JSON.scalar))
    (res : ServerResponse) : completion :=
  let body := JSON.stringify obj in
  let* res := (if present (get "Content-Type" res) then Normal res
               else set "Content-Type" "application/json" res) in
  send pf body res.

(** [app.get('/', (req, res) => { res.json({ message: 'Hello from
    demo-app!', pid: process.pid }); })], for the process of id [pid]. *)
Definition root_handler (pf : Platform) (pid : Z) : Handler :=
  fun _req res =>
    res_json pf [("message", JSON.JString "Hello from demo-app!");
                 ("pid", JSON.JNumber pid)] res.

(** [app.get('/health', (req, res) => { res.status(200).send('ok'); })] *)
Definition health_handler (pf : Platform) : Handler :=
  fun _req res => send pf "ok" (status 200 res).

(** The application of the readme after its two [app.get] calls. *)
Definition app (pf : Platform) (pid : Z) : Application :=
  app_get "/health" (health_handler pf) (app_get "/" (root_handler pf pid) express).

(** What the application of the readme's variant answers to a request
    that Node hands to it. *)
Definition serve (pf : Platform) (pid : Z) (req : Request) : outcome :=
  handle pf (app pf pid) req.

(** The body of its answer to GET /. *)
Definition hello (pid : Z) : string :=
  "{" +:+ Str.dquote +:+ "message" +:+ Str.dquote +:+ ":"
  +:+ Str.dquote +:+ "Hello from demo-app!" +:+ Str.dquote +:+ ","
  +:+ Str.dquote +:+ "pid" +:+ Str.dquote +:+ ":" +:+ JS.ToString (JS.Num pid) +:+ "}".

(** Its complete answer with a JSON body. *)
Definition json_reply (pf : Platform) (body chunk : string) : HttpMessage :=
  {| msg_status := 200;
     msg_headers :=
       <["etag" := weak_etag pf body]>
         (<["content-length" := JS.String_of_nat (String.length body)]>
            (<["content-type" := "application/json; charset=utf-8"]>
               (<["x-powered-by" := "Express"]> ∅)));
     msg_body := chunk |}.

(** Its answer to a GET or HEAD on /, by method and freshness. *)
Definition root_reply (pf : Platform) (pid : Z) (req : Request) : HttpMessage :=
  if revalidates pf req (hello pid) then not_modified_reply pf (hello pid)
  else json_reply pf (hello pid)
         (if String.eqb (req_method req) "HEAD" then EmptyString else hello pid).

End Readme.

(** * Properties *)

(** ** The handlers on the response object the router gives them *)

Lemma health_handler_reply (pf : Platform) (q req : Request) :
  get_or_head req = true ->
  health_handler pf q (initial_response defaultConfiguration req)
  = Normal (res_end (msg_body (reply_to pf req "ok"))
              {| statusCode := msg_status (reply_to pf req "ok");
                 res_headers := msg_headers (reply_to pf req "ok");
                 res_req := req; res_app := defaultConfiguration;
                 res_sent := None |}).
Proof.
  intros Hm. destruct req as [m u h b]. unfold get_or_head in Hm. simpl in Hm.
  apply orb_true_iff in Hm.
  destruct Hm as [Hm | Hm]; apply String.eqb_eq in Hm; subst m;
    unfold health_handler, reply_to, revalidates, send, req_fresh;
    generalize (fresh pf); intros f; vm_compute;
    destruct (f _ _ _); reflexivity.
Qed.

Lemma root_handler_reply (pf : Platform) (q req : Request) :
  get_or_head req = true ->
  root_handler pf q (initial_response defaultConfiguration req)
  = Normal (res_end (msg_body (reply_to pf req anchor))
              {| statusCode := msg_status (reply_to pf req anchor);
                 res_headers := msg_headers (reply_to pf req anchor);
                 res_req := req; res_app := defaultConfiguration;
                 res_sent := None |}).
Proof.
  intros Hm. destruct req as [m u h b]. unfold get_or_head in Hm. simpl in Hm.
  apply orb_true_iff in Hm.
  destruct Hm as [Hm | Hm]; apply String.eqb_eq in Hm; subst m;
    unfold root_handler, reply_to, revalidates, send, req_fresh;
    generalize (fresh pf); intros f; vm_compute;
    destruct (f _ _ _); reflexivity.
Qed.

(** ** The router on the two routes *)

Lemma router_next_cons (pf : Platform) (req : Request) (res : ServerResponse)
    (r : Route) (rest : list Route) (options : list string) :
  router_next pf req res (r :: rest) options
  = if layer_match (res_app res) (route_path r) (getPathname req) then
      let has_method := handles_method r (req_method req) in
      let options' :=
        if negb has_method && String.eqb (req_method req) "OPTIONS"
        then appendMethods options (route_options r) else options in
      if negb has_method && negb (String.eqb (req_method req) "HEAD")
      then router_next pf req res rest options'
      else match route_dispatch r req res with
           | Some c => settle pf req c
           | None => router_next pf req res rest options'
           end
    else router_next pf req res rest options.
Proof. reflexivity. Qed.

Lemma serve_unfold (pf : Platform) (req : Request) :
  serve pf req
  = router_next pf req (initial_response defaultConfiguration req)
      [ {| route_path := "/"; route_stack := [("get", root_handler pf)] |};
        {| route_path := "/health"; route_stack := [("get", health_handler pf)] |} ]
      [].
Proof. reflexivity. Qed.

Lemma initial_response_app (a : Settings) (req : Request) :
  res_app (initial_response a req) = a.
Proof. unfold initial_response, expressInit. simpl. destruct (x_powered_by a); reflexivity. Qed.

Lemma get_route_handles (path : string) (h : Handler) (req : Request) :
  get_or_head req = true ->
  handles_method {| route_path := path; route_stack := [("get", h)] |} (req_method req)
  = true.
Proof.
  unfold get_or_head. intros Hm. apply orb_true_iff in Hm.
  destruct Hm as [Hm | Hm]; apply String.eqb_eq in Hm; rewrite Hm; reflexivity.
Qed.

Lemma get_route_dispatch (path : string) (h : Handler) (req : Request)
    (res : ServerResponse) :
  get_or_head req = true ->
  route_dispatch {| route_path := path; route_stack := [("get", h)] |} req res
  = Some (h req res).
Proof.
  unfold get_or_head, route_dispatch. intros Hm. apply orb_true_iff in Hm.
  destruct Hm as [Hm | Hm]; apply String.eqb_eq in Hm; rewrite Hm; reflexivity.
Qed.

(** A dispatched route of one handler runs that handler or none. *)
Lemma single_route_dispatch (path : string) (h : Handler) (req : Request)
    (res : ServerResponse) (c : completion) :
  route_dispatch {| route_path := path; route_stack := [("get", h)] |} req res
  = Some c ->
  c = h req res.
Proof.
  unfold route_dispatch. cbn [route_stack find fst].
  destruct (String.eqb "get" _); congruence.
Qed.

Lemma done_no_options (pf : Platform) (req : Request) (res : ServerResponse) :
  done pf req res [] = finalhandler_notfound pf req res.
Proof. unfold done. cbn [length Nat.eqb negb]. rewrite andb_false_r. reflexivity. Qed.

Lemma finalhandler_notfound_reply (pf : Platform) (req : Request) :
  finalhandler_notfound pf req (initial_response defaultConfiguration req)
  = Replied (not_found_reply pf req).
Proof.
  unfold finalhandler_notfound, finalhandler_write, not_found_reply.
  destruct (String.eqb (req_method req) "HEAD"); reflexivity.
Qed.

Lemma settle_reply (pf : Platform) (req q : Request) (a : Settings)
    (m : HttpMessage) :
  settle pf req
    (Normal (res_end (msg_body m)
               {| statusCode := msg_status m; res_headers := msg_headers m;
                  res_req := q; res_app := a; res_sent := None |}))
  = Replied m.
Proof. destruct m; reflexivity. Qed.

(** A GET or HEAD request goes to the handler of the first route whose path
    matches, and to the final handler when none does. *)
Lemma serve_get_or_head (pf : Platform) (req : Request) :
  get_or_head req = true ->
  serve pf req
  = if layer_match defaultConfiguration "/" (getPathname req)
    then Replied (reply_to pf req anchor)
    else if layer_match defaultConfiguration "/health" (getPathname req)
         then Replied (reply_to pf req "ok")
         else Replied (not_found_reply pf req).
Proof.
  intros Hm. rewrite serve_unfold, !router_next_cons.
  rewrite initial_response_app. cbn [route_path].
  rewrite !get_route_handles, !get_route_dispatch by assumption.
  cbn [negb andb].
  rewrite root_handler_reply, health_handler_reply by assumption.
  rewrite !settle_reply.
  destruct (layer_match _ "/" _); [reflexivity|].
  destruct (layer_match _ "/health" _); [reflexivity|].
  cbn [router_next]. rewrite done_no_options.
  apply finalhandler_notfound_reply.
Qed.

(** ** What [res.send] does to a response that has not been sent *)

Lemma req_fresh_conditional (pf : Platform) (req : Request) (res : ServerResponse) :
  req_fresh pf req res = true ->
  get_or_head req = true /\ conditional req = true.
Proof.
  unfold req_fresh, get_or_head, conditional, fresh.
  destruct (String.eqb (req_method req) "GET" || String.eqb (req_method req) "HEAD");
    cbn [negb]; [|discriminate].
  destruct (_ || _); [|discriminate].
  destruct (present (req_headers req !! "if-modified-since"));
    destruct (present (req_headers req !! "if-none-match"));
    cbn [negb andb orb]; intros H; first [discriminate H | split; reflexivity].
Qed.

Section Ready.
Context (pf : Platform) (q : Request) (a : Settings).

Lemma with_headers_ready (s : Z) (h : gmap string string) (res : ServerResponse) :
  ready q a s res -> ready q a s (with_headers h res).
Proof. intros (? & ? & ? & ?). repeat split; assumption. Qed.

Lemma with_status_ready (s s' : Z) (res : ServerResponse) :
  ready q a s res -> ready q a s' (with_status s' res).
Proof. intros (? & ? & ? & ?). repeat split; assumption. Qed.

Lemma setHeader_ready (s : Z) (name value : string) (res : ServerResponse) :
  ready q a s res ->
  exists res', setHeader name value res = Normal res' /\ ready q a s res'.
Proof.
  intros Hr. unfold setHeader, headersSent.
  destruct Hr as (Hs & Hr). rewrite Hs. eexists. split; [reflexivity|].
  apply with_headers_ready. repeat split; tauto.
Qed.

Lemma removeHeader_ready (s : Z) (name : string) (res : ServerResponse) :
  ready q a s res ->
  exists res', removeHeader name res = Normal res' /\ ready q a s res'.
Proof.
  intros Hr. unfold removeHeader, headersSent.
  destruct Hr as (Hs & Hr). rewrite Hs. eexists. split; [reflexivity|].
  apply with_headers_ready. repeat split; tauto.
Qed.

Lemma set_ready (s : Z) (field value : string) (res : ServerResponse) :
  ready q a s res ->
  exists res', set field value res = Normal res' /\ ready q a s res'.
Proof. intros Hr. unfold set. apply setHeader_ready, Hr. Qed.

Lemma type_ready (s : Z) (t : string) (res : ServerResponse) :
  ready q a s res ->
  exists res', type t res = Normal res' /\ ready q a s res'.
Proof. intros Hr. unfold type. apply set_ready, Hr. Qed.

Lemma res_end_ready (s : Z) (chunk : string) (res : ServerResponse) :
  ready q a s res ->
  res_sent (res_end chunk res)
  = Some {| msg_status := s; msg_headers := res_headers res; msg_body := chunk |}.
Proof.
  intros (Hs & _ & _ & Hc). unfold res_end, headersSent. rewrite Hs, Hc. reflexivity.
Qed.

(** [res.send] on a response not yet sent: it does not throw, the response
    is sent, and its status is the one the response had, or 304 for a GET
    or HEAD request that is conditional. *)
Lemma send_ready (s : Z) (body : string) (res : ServerResponse) :
  ready q a s res ->
  exists res' m,
    send pf body res = Normal res' /\ res_sent res' = Some m
    /\ (msg_status m = s
        \/ (msg_status m = 304 /\ get_or_head q = true /\ conditional q = true)).
Proof.
  intros Hr. unfold send.
  assert (exists r1, (if present (get "Content-Type" res) then Normal res
                      else type "html" res) = Normal r1 /\ ready q a s r1)
    as (r1 & -> & H1).
  { destruct (present _); [eauto | apply type_ready, Hr]. }
  cbn [bind].
  assert (exists r2, match get "Content-Type" r1 with
                     | Some t => set "Content-Type" (setCharset t) r1
                     | None => Normal r1
                     end = Normal r2 /\ ready q a s r2)
    as (r2 & -> & H2).
  { destruct (get _ r1); [apply set_ready, H1 | eauto]. }
  cbn [bind].
  destruct (set_ready s "Content-Length" (JS.String_of_nat (String.length body)) r2 H2)
    as (r3 & -> & H3).
  cbn [bind].
  assert (exists r4, match etag_fn pf (res_app r3) with
                     | Some etagFn =>
                         if negb (present (get "ETag" r2))
                         then set "ETag" (etagFn body) r3 else Normal r3
                     | None => Normal r3
                     end = Normal r4 /\ ready q a s r4)
    as (r4 & -> & H4).
  { destruct (etag_fn _ _); [destruct (negb _); [apply set_ready, H3|]|]; eauto. }
  cbn [bind].
  replace (res_req res) with q by (symmetry; apply Hr).
  destruct (req_fresh pf q r4) eqn:Hf.
  - pose proof (with_status_ready s 304 r4 H4) as H5.
    replace (statusCode (with_status 304 r4)) with 304 by reflexivity.
    cbn [Z.eqb Pos.eqb orb].
    destruct (removeHeader_ready 304 "Content-Type" _ H5) as (r6 & -> & H6).
    cbn [bind].
    destruct (removeHeader_ready 304 "Content-Length" _ H6) as (r7 & -> & H7).
    cbn [bind].
    destruct (removeHeader_ready 304 "Transfer-Encoding" _ H7) as (r8 & -> & H8).
    cbn [bind].
    replace (statusCode r8) with 304 by (symmetry; apply H8).
    cbn [Z.eqb Pos.eqb].
    destruct (String.eqb (req_method q) "HEAD");
      eexists; eexists; (split; [reflexivity|]);
      (split; [apply res_end_ready, H8|]); right;
      (split; [reflexivity | eapply req_fresh_conditional, Hf]).
  - replace (statusCode r4) with s by (symmetry; apply H4).
    assert (exists r5,
              (if (s =? 204) || (s =? 304)
               then let* r := removeHeader "Content-Type" r4 in
                    let* r := removeHeader "Content-Length" r in
                    removeHeader "Transfer-Encoding" r
               else Normal r4) = Normal r5 /\ ready q a s r5)
      as (r5 & -> & H5).
    { destruct ((s =? 204) || (s =? 304)); [|eauto].
      destruct (removeHeader_ready s "Content-Type" _ H4) as (r6 & -> & H6).
      cbn [bind].
      destruct (removeHeader_ready s "Content-Length" _ H6) as (r7 & -> & H7).
      cbn [bind]. apply removeHeader_ready, H7. }
    cbn [bind].
    replace (statusCode r5) with s by (symmetry; apply H5).
    assert (exists r6,
              (if s =? 205
               then let* r := set "Content-Length" "0" r5 in
                    removeHeader "Transfer-Encoding" r
               else Normal r5) = Normal r6 /\ ready q a s r6)
      as (r6 & -> & H6).
    { destruct (s =? 205); [|eauto].
      destruct (set_ready s "Content-Length" "0" _ H5) as (r7 & -> & H7).
      cbn [bind]. apply removeHeader_ready, H7. }
    cbn [bind].
    destruct (String.eqb (req_method q) "HEAD");
      eexists; eexists; (split; [reflexivity|]);
      (split; [apply res_end_ready, H6|]); left; reflexivity.
Qed.

End Ready.

(** ** Every request is answered *)

Lemma initial_response_ready (a : Settings) (req : Request) :
  ready req a 200 (initial_response a req).
Proof.
  unfold initial_response, expressInit, new_response, setHeader, headersSent.
  cbn [res_app res_sent]. destruct (x_powered_by a); repeat split.
Qed.

Lemma settle_sent (pf : Platform) (req : Request) (res : ServerResponse)
    (m : HttpMessage) :
  res_sent res = Some m -> settle pf req (Normal res) = Replied m.
Proof. intros H. unfold settle, outcome_of. rewrite H. reflexivity. Qed.

Lemma health_handler_total (pf : Platform) (q req : Request) (a : Settings) :
  exists res' m,
    health_handler pf q (initial_response a req) = Normal res'
    /\ res_sent res' = Some m
    /\ (msg_status m = 200
        \/ (msg_status m = 304 /\ get_or_head req = true /\ conditional req = true)).
Proof.
  unfold health_handler, status.
  eapply send_ready, with_status_ready, initial_response_ready.
Qed.

Lemma root_handler_total (pf : Platform) (q req : Request) (a : Settings) :
  exists res' m,
    root_handler pf q (initial_response a req) = Normal res'
    /\ res_sent res' = Some m
    /\ (msg_status m = 200
        \/ (msg_status m = 304 /\ get_or_head req = true /\ conditional req = true)).
Proof.
  unfold root_handler.
  destruct (type_ready req a 200 "html" _ (initial_response_ready a req))
    as (r1 & -> & H1).
  cbn [bind]. eapply send_ready, H1.
Qed.

Lemma sendOptionsResponse_total (pf : Platform) (req : Request) (a : Settings)
    (options : list string) :
  exists m, settle pf req (sendOptionsResponse pf options (initial_response a req))
            = Replied m.
Proof.
  unfold sendOptionsResponse.
  destruct (set_ready req a 200 "Allow" (Str.join "," options) _
              (initial_response_ready a req)) as (r1 & -> & H1).
  cbn [bind].
  destruct (send_ready pf req a 200 (Str.join "," options) r1 H1)
    as (r2 & m & -> & Hm & _).
  exists m. apply settle_sent, Hm.
Qed.

Lemma done_total (pf : Platform) (req : Request) (options : list string) :
  exists m, done pf req (initial_response defaultConfiguration req) options
            = Replied m.
Proof.
  unfold done. destruct (_ && _).
  - apply sendOptionsResponse_total.
  - rewrite finalhandler_notfound_reply. eauto.
Qed.

(** By induction on the routes still to try: when the handlers of every
    route answer, so does the router. *)
Lemma router_next_total (pf : Platform) (req : Request) (routes : list Route) :
  Forall (fun r => forall c,
            route_dispatch r req (initial_response defaultConfiguration req) = Some c ->
            exists m, settle pf req c = Replied m) routes ->
  forall options,
  exists m, router_next pf req (initial_response defaultConfiguration req)
              routes options = Replied m.
Proof.
  induction 1 as [|r rest Hr _ IH]; intros options.
  - apply done_total.
  - rewrite router_next_cons.
    destruct (layer_match _ _ _); [|apply IH].
    cbv zeta. destruct (_ && negb _); [apply IH|].
    destruct (route_dispatch r req _) as [c|] eqn:Hc; [|apply IH].
    apply Hr. reflexivity.
Qed.

Lemma serve_total (pf : Platform) (req : Request) :
  exists m, serve pf req = Replied m.
Proof.
  rewrite serve_unfold. apply router_next_total.
  repeat constructor; intros c Hc; apply single_route_dispatch in Hc; subst c.
  - destruct (root_handler_total pf req req defaultConfiguration)
      as (r & m & -> & Hm & _).
    exists m. apply settle_sent, Hm.
  - destruct (health_handler_total pf req req defaultConfiguration)
      as (r & m & -> & Hm & _).
    exists m. apply settle_sent, Hm.
Qed.

(** ** Freshness *)

Lemma revalidates_unconditional (pf : Platform) (req : Request) (body : string) :
  conditional req = false -> revalidates pf req body = false.
Proof.
  unfold conditional, revalidates, fresh. intros H.
  apply orb_false_iff in H. destruct H as [-> ->]. reflexivity.
Qed.

Lemma reply_to_full (pf : Platform) (req : Request) (body : string) :
  req_method req = "GET" -> revalidates pf req body = false ->
  reply_to pf req body = full_reply pf body body.
Proof. intros Hm Hf. unfold reply_to. rewrite Hf, Hm. reflexivity. Qed.

Lemma reply_to_not_modified (pf : Platform) (req : Request) (body : string) :
  revalidates pf req body = true ->
  reply_to pf req body = not_modified_reply pf body.
Proof. intros Hf. unfold reply_to. rewrite Hf. reflexivity. Qed.

Lemma get_is_get_or_head (req : Request) :
  req_method req = "GET" -> get_or_head req = true.
Proof. intros H. unfold get_or_head. rewrite H. reflexivity. Qed.

Lemma serve_get_health (pf : Platform) (req : Request) :
  req_method req = "GET" -> getPathname req = "/health" ->
  serve pf req = Replied (reply_to pf req "ok").
Proof.
  intros Hm Hp. rewrite serve_get_or_head by (apply get_is_get_or_head, Hm).
  rewrite Hp. reflexivity.
Qed.

Lemma serve_get_root (pf : Platform) (req : Request) :
  req_method req = "GET" -> getPathname req = "/" ->
  serve pf req = Replied (reply_to pf req anchor).
Proof.
  intros Hm Hp. rewrite serve_get_or_head by (apply get_is_get_or_head, Hm).
  rewrite Hp. reflexivity.
Qed.

(** ** The port *)

Example port_unset : port ∅ = JS.Num 6969.
Proof. reflexivity. Qed.

Example port_8081 : port port_8081_env = JS.Str "8081".
Proof. reflexivity. Qed.

Lemma port_cases (env : gmap string string) :
  port env = match env !! "PORT" with
             | Some v => if Str.is_empty v then JS.Num 6969 else JS.Str v
             | None => JS.Num 6969
             end.
Proof.
  unfold port, env_get, JS.or. destruct (env !! "PORT") as [v|]; [|reflexivity].
  cbn [JS.ToBoolean]. destruct (Str.is_empty v); reflexivity.
Qed.

Lemma main_binds_once (pf : Platform) (env : gmap string string)
    (bindable : JS.value -> bool) :
  run_binds (main pf env bindable) = [port env].
Proof.
  unfold main, server_listen, app_listen. cbn [srv_port error_listeners].
  destruct (bindable (port env)); reflexivity.
Qed.

Lemma main_process (pf : Platform) (env : gmap string string)
    (bindable : JS.value -> bool) :
  run_process (main pf env bindable)
  = if bindable (port env) then Listening (port env) (serve pf) else Exited 1.
Proof.
  unfold main, server_listen, app_listen. cbn [srv_port error_listeners].
  destruct (bindable (port env)); reflexivity.
Qed.

(** C2, as stated, fails when PORT is set to the empty string: the variable
    is set, and the service binds the default 6969. *)
Lemma empty_port_binds_default :
  empty_port_env !! "PORT" = Some EmptyString
  /\ port empty_port_env = JS.Num 6969
  /\ forall pf bindable,
       run_binds (main pf empty_port_env bindable) = [JS.Num 6969].
Proof.
  split; [reflexivity|]. split; [reflexivity|].
  intros pf bindable. rewrite main_binds_once. reflexivity.
Qed.

(** C2 (amended): the port is chosen once, at process start.  If PORT is
    set to a non-empty value the service binds that value, as the string it
    is, and nothing else; if PORT is unset (or set to the empty string) it
    binds the default 6969.  The process listens on the value it bound. *)
Theorem port_selection (pf : Platform) (env : gmap string string)
    (bindable : JS.value -> bool) :
  match env !! "PORT" with
  | Some v => if Str.is_empty v then port env = JS.Num 6969 else port env = JS.Str v
  | None => port env = JS.Num 6969
  end
  /\ run_binds (main pf env bindable) = [port env]
  /\ (bindable (port env) = true ->
      run_process (main pf env bindable) = Listening (port env) (serve pf)).
Proof.
  split.
  - rewrite port_cases. destruct (env !! "PORT") as [v|]; [|reflexivity].
    destruct (Str.is_empty v); reflexivity.
  - split; [apply main_binds_once|].
    intros Hb. rewrite main_process, Hb. reflexivity.
Qed.

(** C9, as stated, fails for PORT set to the string 0: a non-empty string
    is truthy, so the service binds the value 0 it was given and not 6969. *)
Lemma zero_port_is_used :
  zero_port_env !! "PORT" = Some "0"
  /\ port zero_port_env = JS.Str "0"
  /\ port zero_port_env <> JS.Num 6969
  /\ forall pf bindable,
       run_binds (main pf zero_port_env bindable) = [JS.Str "0"].
Proof.
  split; [reflexivity|]. split; [reflexivity|]. split; [discriminate|].
  intros pf bindable. rewrite main_binds_once. reflexivity.
Qed.

(** C9 (amended): if PORT is set to the empty string the service falls
    back to the default 6969; every non-empty value, the string 0 included,
    is handed to [listen] as it is, a string, with no integer parsing and no
    validation. *)
Theorem port_fallback (pf : Platform) (env : gmap string string) (v : string)
    (bindable : JS.value -> bool) :
  env !! "PORT" = Some v ->
  port env = (if Str.is_empty v then JS.Num 6969 else JS.Str v)
  /\ run_binds (main pf env bindable)
     = [if Str.is_empty v then JS.Num 6969 else JS.Str v].
Proof.
  intros Hv.
  assert (port env = if Str.is_empty v then JS.Num 6969 else JS.Str v) as Hp.
  { rewrite port_cases, Hv. reflexivity. }
  split; [exact Hp|]. rewrite main_binds_once, Hp. reflexivity.
Qed.

(** [port_fallback] at PORT=0. *)
Lemma port_fallback_witness :
  zero_port_env !! "PORT" = Some "0"
  /\ port zero_port_env = JS.Str "0"
  /\ run_binds (main example_platform zero_port_env (fun _ => true))
     = [JS.Str "0"].
Proof.
  split; [reflexivity|].
  exact (port_fallback example_platform zero_port_env "0" (fun _ => true) eq_refl).
Defined.

(** ** Start-up *)

(** C5: the start-up asks for one bind, of the configured port.  When the
    bind fails the process ends with exit code 1 (not zero), having written
    nothing and tried no other port; when it succeeds the process listens
    with the application as the listener of its requests, and the
    application answers every request that Node hands to it: no handler
    throws and no request is left without answer, so that the failed bind is
    the only way the application fails. *)
Theorem bind_failure_is_the_only_failure (pf : Platform)
    (env : gmap string string) (bindable : JS.value -> bool) :
  run_binds (main pf env bindable) = [port env]
  /\ (if bindable (port env)
      then run_process (main pf env bindable) = Listening (port env) (serve pf)
           /\ forall req, emitted_as_request req = true ->
                          exists m, serve pf req = Replied m
      else exists code, run_process (main pf env bindable) = Exited code
                        /\ code <> 0
                        /\ run_stdout (main pf env bindable) = []).
Proof.
  split; [apply main_binds_once|].
  pose proof (main_process pf env bindable) as Hp.
  destruct (bindable (port env)) eqn:Hb.
  - split; [exact Hp|]. intros req _. apply serve_total.
  - exists 1. split; [exact Hp|]. split; [discriminate|].
    unfold main, server_listen, app_listen. cbn [srv_port error_listeners].
    rewrite Hb. reflexivity.
Qed.

(** The text the callback writes for the port reads as the port that the
    value handed to [listen] asks for. *)
Lemma port_text_reads_as_requested (env : gmap string string) :
  requested_port (JS.Str (JS.ToString (port env))) = requested_port (port env).
Proof.
  rewrite port_cases. destruct (env !! "PORT") as [v|]; [|reflexivity].
  destruct (Str.is_empty v); reflexivity.
Qed.

(** C7, as stated, fails when PORT is 0: the line says port 0, and the
    process listens on the port the system picked, 41927 for one. *)
Lemma port_zero_logs_zero :
  run_stdout (main example_platform zero_port_env (fun _ => true))
  = ["demo-app listening on port 0"]
  /\ listening_port 41927
       (run_process (main example_platform zero_port_env (fun _ => true)))
     = Some 41927
  /\ requested_port (JS.Str "0") = Some 0.
Proof. split; [reflexivity|]. split; reflexivity. Qed.

(** C7 (amended): on a successful bind the service writes exactly one
    line to its log, and the line states the value that was handed to
    [listen]: PORT, or 6969.  That value is the port the process listens on
    whenever it asks for a port from 1 to 65535; when it asks for port 0
    the system picks the port, and the line does not state it. *)
Theorem listening_log_line (pf : Platform) (env : gmap string string)
    (bindable : JS.value -> bool) (free : Z) :
  bindable (port env) = true ->
  run_process (main pf env bindable) = Listening (port env) (serve pf)
  /\ run_stdout (main pf env bindable)
     = ["demo-app listening on port " +:+ JS.ToString (port env)]
  /\ (forall n, requested_port (port env) = Some n ->
                1 <= n <= 65535 ->
                listening_port free (run_process (main pf env bindable)) = Some n
                /\ requested_port (JS.Str (JS.ToString (port env))) = Some n)
  /\ (requested_port (port env) = Some 0 ->
      listening_port free (run_process (main pf env bindable)) = Some free).
Proof.
  intros Hb.
  assert (run_process (main pf env bindable) = Listening (port env) (serve pf))
    as Hp by (rewrite main_process, Hb; reflexivity).
  split; [exact Hp|]. split.
  { unfold main, server_listen, app_listen. cbn [srv_port listening_listeners].
    rewrite Hb. reflexivity. }
  rewrite Hp. unfold listening_port, bound_port. split.
  - intros n Hn Hr. rewrite port_text_reads_as_requested, Hn.
    split; [|reflexivity].
    destruct (Z.eqb_spec n 0) as [-> | _]; [lia|].
    destruct (Z.leb_spec n 65535); [reflexivity | lia].
  - intros ->. reflexivity.
Qed.

(** [listening_log_line] with PORT unset and a bind that succeeds. *)
Lemma listening_log_line_witness :
  run_process (main example_platform ∅ (fun _ => true))
  = Listening (JS.Num 6969) (serve example_platform)
  /\ run_stdout (main example_platform ∅ (fun _ => true))
     = ["demo-app listening on port 6969"]
  /\ listening_port 41927 (run_process (main example_platform ∅ (fun _ => true)))
     = Some 6969.
Proof.
  destruct (listening_log_line example_platform ∅ (fun _ => true) 41927 eq_refl)
    as (Hp & Hl & Hn & _).
  split; [exact Hp|]. split; [exact Hl|].
  apply (Hn 6969); [reflexivity | lia].
Defined.

(** ** The requests Node hands to the application *)

Lemma METHODS_upper_case (m : string) : In m METHODS -> Str.upper m = m.
Proof.
  intros Hin. unfold METHODS in Hin. cbn [In] in Hin.
  repeat (destruct Hin as [<- | Hin]; [reflexivity|]). destruct Hin.
Qed.

Lemma emitted_method (req : Request) :
  emitted_as_request req = true ->
  In (req_method req) METHODS /\ req_method req <> "CONNECT".
Proof.
  unfold emitted_as_request. intros He.
  repeat (apply andb_true_iff in He; destruct He as [He ?]).
  split.
  - apply existsb_exists in He. destruct He as (m & Hin & Heq).
    apply String.eqb_eq in Heq. rewrite Heq. exact Hin.
  - apply String.eqb_neq, negb_true_iff. assumption.
Qed.

(** The method token of such a request is in upper case. *)
Lemma emitted_upper_case (req : Request) :
  emitted_as_request req = true -> upper_case_method req.
Proof. intros He. apply METHODS_upper_case, emitted_method, He. Qed.

Lemma emitted_origin_form (req : Request) :
  emitted_as_request req = true -> origin_form (req_url req) = true.
Proof.
  unfold emitted_as_request. intros He.
  repeat (apply andb_true_iff in He; destruct He as [He ?]). assumption.
Qed.

(** The path of a target in origin form begins with its slash. *)
Lemma origin_form_pathname (req : Request) :
  origin_form (req_url req) = true ->
  exists rest, getPathname req = String "/" rest.
Proof.
  unfold getPathname. destruct (req_url req) as [|c t]; [discriminate|].
  cbn [origin_form]. intros H. apply andb_true_iff in H. destruct H as [Hc _].
  apply Ascii.eqb_eq in Hc. subst c. eexists. reflexivity.
Qed.

Example curl_is_emitted : emitted_as_request (curl_request "GET" "/health") = true.
Proof. reflexivity. Qed.

Example probe_is_emitted : emitted_as_request probe_request = true.
Proof. reflexivity. Qed.

(** Requests Node answers itself, or not at all: one with an expectation
    it does not know, a CONNECT, and one with a method token the parser does
    not know. *)
Example expectation_not_emitted :
  emitted_as_request
    (request "GET" "/health" [("host", "localhost:6969"); ("expect", "foo")])
  = false.
Proof. reflexivity. Qed.

Example connect_not_emitted :
  emitted_as_request (request "CONNECT" "/health" [("host", "localhost:6969")])
  = false.
Proof. reflexivity. Qed.

Example unknown_method_not_emitted :
  emitted_as_request (curl_request "BREW" "/health") = false.
Proof. reflexivity. Qed.

(** Targets package parseurl does not read by itself. *)
Example fragment_not_origin_form : origin_form "/health#top" = false.
Proof. reflexivity. Qed.

Example absolute_not_origin_form : origin_form "http://localhost/health" = false.
Proof. reflexivity. Qed.

(** ** The route [/health] *)

Example health_plain (pf : Platform) :
  serve pf plain_health_request = Replied (full_reply pf "ok" "ok").
Proof. rewrite serve_get_health by reflexivity. reflexivity. Qed.

Example health_entity_tag :
  msg_headers (full_reply example_platform "ok" "ok") !! "etag"
  = Some ("W/" +:+ Str.dquote +:+ "2-eoX0dku9ba8cNUXvu/DyeabcC+s" +:+ Str.dquote).
Proof. reflexivity. Qed.

Example health_revalidated_by_its_tag :
  serve example_platform
    (request "GET" "/health" [("if-none-match", weak_etag example_platform "ok")])
  = Replied (not_modified_reply example_platform "ok").
Proof. rewrite serve_get_health by reflexivity. reflexivity. Qed.

Example health_no_cache_is_answered_in_full :
  serve example_platform
    (request "GET" "/health" [("if-none-match", "*"); ("cache-control", "no-cache")])
  = Replied (full_reply example_platform "ok" "ok").
Proof. rewrite serve_get_health by reflexivity. reflexivity. Qed.

Lemma conditional_health_revalidates (pf : Platform) :
  revalidates pf conditional_health_request "ok" = true.
Proof. reflexivity. Qed.

(** C1, as stated, fails for a conditional GET: with the header
    If-None-Match: * the request is fresh for [res.send], and the answer to
    GET /health is 304 with an empty body. *)
Lemma conditional_health_get_is_304 :
  req_method conditional_health_request = "GET"
  /\ getPathname conditional_health_request = "/health"
  /\ forall pf, exists m,
       serve pf conditional_health_request = Replied m
       /\ msg_status m = 304 /\ msg_body m = EmptyString.
Proof.
  split; [reflexivity|]. split; [reflexivity|]. intros pf.
  exists (not_modified_reply pf "ok").
  rewrite serve_get_health by reflexivity.
  rewrite reply_to_not_modified by apply conditional_health_revalidates.
  repeat split.
Qed.

(** C1 (amended): every GET request to the path /health that is not a
    fresh conditional request is answered with status 200 and the body ok;
    a request without If-None-Match and If-Modified-Since header is never
    fresh.  A fresh conditional GET is answered 304 with an empty body. *)
Theorem health_get (pf : Platform) (req : Request) :
  req_method req = "GET" ->
  getPathname req = "/health" ->
  exists m,
    serve pf req = Replied m
    /\ (revalidates pf req "ok" = false -> msg_status m = 200 /\ msg_body m = "ok")
    /\ (revalidates pf req "ok" = true ->
        msg_status m = 304 /\ msg_body m = EmptyString)
    /\ (conditional req = false -> revalidates pf req "ok" = false).
Proof.
  intros Hm Hp. exists (reply_to pf req "ok").
  split; [apply serve_get_health; assumption|].
  split; [|split].
  - intros Hf. rewrite reply_to_full by assumption. split; reflexivity.
  - intros Hf. rewrite reply_to_not_modified by assumption. split; reflexivity.
  - apply revalidates_unconditional.
Qed.

(** [health_get] at a GET /health without headers. *)
Lemma health_get_witness :
  req_method plain_health_request = "GET"
  /\ getPathname plain_health_request = "/health"
  /\ exists m,
       serve example_platform plain_health_request = Replied m
       /\ msg_status m = 200 /\ msg_body m = "ok".
Proof.
  split; [reflexivity|]. split; [reflexivity|].
  destruct (health_get example_platform plain_health_request eq_refl eq_refl)
    as (m & Hs & Hfull & _ & Hun).
  exists m. split; [exact Hs|]. apply Hfull, Hun. reflexivity.
Defined.

(** C4, as stated, fails on every answered GET /health: the handler sets
    no content type, and [res.send] gives a string body the type
    text/html; charset=utf-8, not text/plain. *)
Lemma health_content_type_is_html :
  req_method plain_health_request = "GET"
  /\ getPathname plain_health_request = "/health"
  /\ forall pf, exists m,
       serve pf plain_health_request = Replied m
       /\ msg_headers m !! "content-type" = Some "text/html; charset=utf-8"
       /\ media_type "text/html; charset=utf-8" <> "text/plain".
Proof.
  split; [reflexivity|]. split; [reflexivity|]. intros pf.
  exists (full_reply pf "ok" "ok"). split; [apply health_plain|].
  split; [reflexivity | discriminate].
Qed.

(** C4 (amended): the handler of /health sets no content type; a GET
    request to /health answered with 200 carries the content type
    text/html; charset=utf-8, which [res.send] gives a string body, and the
    304 answer to a fresh conditional request carries none. *)
Theorem health_content_type (pf : Platform) (req : Request) :
  req_method req = "GET" ->
  getPathname req = "/health" ->
  get "Content-Type" (status 200 (initial_response defaultConfiguration req)) = None
  /\ exists m,
       serve pf req = Replied m
       /\ msg_headers m !! "content-type"
          = (if revalidates pf req "ok" then None
             else Some "text/html; charset=utf-8").
Proof.
  intros Hm Hp. split; [reflexivity|].
  exists (reply_to pf req "ok"). split; [apply serve_get_health; assumption|].
  unfold reply_to. destruct (revalidates pf req "ok"); reflexivity.
Qed.

(** [health_content_type] at a GET /health without headers. *)
Lemma health_content_type_witness :
  exists m,
    serve example_platform plain_health_request = Replied m
    /\ msg_headers m !! "content-type" = Some "text/html; charset=utf-8".
Proof.
  destruct (health_content_type example_platform plain_health_request
              eq_refl eq_refl) as (_ & m & Hs & Hct).
  exists m. split; [exact Hs | exact Hct].
Defined.

(** ** The route [/] *)

Example anchor_is_an_anchor_element :
  anchor = anchor_element anchor_attributes link_text.
Proof. reflexivity. Qed.

Lemma conditional_root_revalidates (pf : Platform) :
  revalidates pf conditional_root_request anchor = true.
Proof. reflexivity. Qed.




(** ** Requests no route takes *)

Lemma layer_match_root (pathname : string) :
  layer_match defaultConfiguration "/" pathname
  = (String.eqb (Str.lower pathname) "/" || String.eqb (Str.lower pathname) EmptyString).
Proof. reflexivity. Qed.

Lemma layer_match_health (pathname : string) :
  layer_match defaultConfiguration "/health" pathname
  = (String.eqb (Str.lower pathname) "/health"
     || String.eqb (Str.lower pathname) "/health/").
Proof. reflexivity. Qed.

Example nope_is_not_found (pf : Platform) :
  serve pf nope_request = Replied (not_found_reply pf nope_request).
Proof. rewrite serve_get_or_head by reflexivity. reflexivity. Qed.

(** C6, as stated, fails for paths that differ from /health only in the
    case of their letters or by a trailing slash: the router matches them to
    the route /health, and GET /HEALTH is answered 200 with the body ok. *)
Lemma upper_case_health_is_served :
  getPathname upper_case_health_request <> "/"
  /\ getPathname upper_case_health_request <> "/health"
  /\ forall pf, exists m,
       serve pf upper_case_health_request = Replied m
       /\ msg_status m = 200 /\ is_2xx (msg_status m) = true /\ msg_body m = "ok".
Proof.
  split; [discriminate|]. split; [discriminate|]. intros pf.
  exists (full_reply pf "ok" "ok").
  rewrite serve_get_or_head by reflexivity. repeat split.
Qed.

(** C6 (amended): every request that Node hands to the application (see
    [emitted_as_request]; its target is in origin form) and whose path the
    router matches to neither route (it compares paths without regard to the
    case of letters and lets one trailing slash go) gets the final handler's
    answer, with status 404, which is not a 2xx status; the application has
    the two routes and no handler of its own for anything else. *)
Theorem unmatched_request_not_found (pf : Platform) (req : Request) :
  emitted_as_request req = true ->
  layer_match defaultConfiguration "/" (getPathname req) = false ->
  layer_match defaultConfiguration "/health" (getPathname req) = false ->
  serve pf req
  = finalhandler_notfound pf req (initial_response defaultConfiguration req)
  /\ (exists m, serve pf req = Replied m
                /\ msg_status m = 404 /\ is_2xx (msg_status m) = false)
  /\ map route_path (stack (app pf)) = ["/"; "/health"].
Proof.
  intros _ H1 H2.
  assert (serve pf req
          = finalhandler_notfound pf req (initial_response defaultConfiguration req))
    as Hs.
  { rewrite serve_unfold, !router_next_cons, initial_response_app.
    cbn [route_path]. rewrite H1, H2. cbn [router_next]. apply done_no_options. }
  split; [exact Hs|]. split; [|reflexivity].
  exists (not_found_reply pf req).
  rewrite Hs, finalhandler_notfound_reply. repeat split.
Qed.

(** [unmatched_request_not_found] at GET /nope, as curl sends it. *)
Lemma unmatched_request_not_found_witness :
  emitted_as_request (curl_request "GET" "/nope") = true
  /\ layer_match defaultConfiguration "/" (getPathname (curl_request "GET" "/nope"))
     = false
  /\ layer_match defaultConfiguration "/health"
       (getPathname (curl_request "GET" "/nope"))
     = false
  /\ exists m, serve example_platform (curl_request "GET" "/nope") = Replied m
               /\ msg_status m = 404 /\ is_2xx (msg_status m) = false.
Proof.
  split; [reflexivity|]. split; [reflexivity|]. split; [reflexivity|].
  exact (proj1 (proj2 (unmatched_request_not_found example_platform
                         (curl_request "GET" "/nope") eq_refl eq_refl eq_refl))).
Defined.

(** ** Requests to the same route *)





(** ** The handlers never throw *)

(** C10, as stated, fails on the request's headers: for a GET / with
    If-None-Match: * the handler of / completes with the status 304. *)
Lemma root_handler_conditional_status :
  get_or_head conditional_root_request = true
  /\ forall pf, exists res m,
       root_handler pf conditional_root_request
         (initial_response defaultConfiguration conditional_root_request)
       = Normal res
       /\ res_sent res = Some m /\ msg_status m = 304 /\ msg_status m <> 200.
Proof.
  split; [reflexivity|]. intros pf.
  rewrite root_handler_reply by reflexivity.
  rewrite reply_to_not_modified by apply conditional_root_revalidates.
  eexists. eexists. split; [reflexivity|]. split; [reflexivity|].
  split; [reflexivity | discriminate].
Qed.

(** C10 (amended): on the response object the router hands them, for a
    request with any method, headers, query string and body, the handlers of
    / and /health do not throw and send a response; its status is 200, or
    304 when the request is a conditional GET or HEAD that [res.send] finds
    fresh. *)
Theorem handlers_never_throw (pf : Platform) (req : Request) :
  (exists res m,
     root_handler pf req (initial_response defaultConfiguration req) = Normal res
     /\ res_sent res = Some m
     /\ (msg_status m = 200
         \/ (msg_status m = 304 /\ get_or_head req = true /\ conditional req = true)))
  /\ (exists res m,
        health_handler pf req (initial_response defaultConfiguration req) = Normal res
        /\ res_sent res = Some m
        /\ (msg_status m = 200
            \/ (msg_status m = 304 /\ get_or_head req = true
                /\ conditional req = true))).
Proof.
  split; [apply root_handler_total | apply health_handler_total].
Qed.

(** ** The other methods, on examples *)

Example head_root_has_no_body :
  serve example_platform (request "HEAD" "/" [])
  = Replied (full_reply example_platform anchor EmptyString).
Proof. rewrite serve_get_or_head by reflexivity. reflexivity. Qed.

Example post_health_is_not_found :
  exists m, serve example_platform (request "POST" "/health" []) = Replied m
            /\ msg_status m = 404.
Proof. eexists. split; [vm_compute; reflexivity | reflexivity]. Qed.

Example options_health_lists_methods :
  exists m, serve example_platform (request "OPTIONS" "/health" []) = Replied m
            /\ msg_status m = 200
            /\ msg_headers m !! "allow" = Some "GET,HEAD"
            /\ msg_body m = "GET,HEAD".
Proof. eexists. split; [vm_compute; reflexivity | repeat split]. Qed.

Example trailing_slash_health_is_served :
  serve example_platform (request "GET" "/health/" [])
  = Replied (full_reply example_platform "ok" "ok").
Proof. rewrite serve_get_or_head by reflexivity. reflexivity. Qed.

(** * Further properties *)

(** ** Method tokens *)

Lemma upper_lower_ascii (c : ascii) :
  Str.upper_ascii (Str.lower_ascii c) = Str.upper_ascii c.
Proof. destruct c as [[] [] [] [] [] [] [] []]; reflexivity. Qed.

Lemma upper_lower (s : string) : Str.upper (Str.lower s) = Str.upper s.
Proof.
  induction s as [|c s IH]; [reflexivity|].
  cbn [Str.lower Str.upper]. rewrite upper_lower_ascii, IH. reflexivity.
Qed.

(** An upper-case token is determined by its lower-case form. *)
Lemma upper_case_of_lower (m l : string) :
  Str.upper m = m -> Str.lower m = l -> m = Str.upper l.
Proof. intros Hu Hl. rewrite <- Hl, upper_lower, Hu. reflexivity. Qed.

Lemma lower_not_get (req : Request) :
  upper_case_method req -> get_or_head req = false ->
  Str.lower (req_method req) <> "get" /\ Str.lower (req_method req) <> "head".
Proof.
  unfold upper_case_method, get_or_head. intros Hu Hg.
  apply orb_false_iff in Hg. destruct Hg as [Hget Hhead].
  apply String.eqb_neq in Hget, Hhead.
  split; intros Hl; apply (upper_case_of_lower _ _ Hu) in Hl; auto.
Qed.

(** ** Methods the routes do not answer *)

Lemma unhandled_method (path : string) (h : Handler) (m : string) :
  Str.lower m <> "get" -> Str.lower m <> "head" ->
  handles_method {| route_path := path; route_stack := [("get", h)] |} m = false.
Proof.
  intros Hget Hhead. unfold handles_method, route_method, has_handler.
  cbn [route_stack existsb fst].
  apply String.eqb_neq in Hhead. rewrite Hhead. cbn [andb orb].
  rewrite orb_false_r. apply String.eqb_neq. congruence.
Qed.

Lemma not_head_of_lower (m : string) : Str.lower m <> "head" -> m <> "HEAD".
Proof. intros H ->. apply H. reflexivity. Qed.

(** By induction on the routes: a request whose method no route answers,
    and which is neither HEAD nor OPTIONS, reaches the end of the stack with
    the list of options untouched. *)
Lemma router_next_unhandled (pf : Platform) (req : Request) (res : ServerResponse)
    (routes : list Route) :
  Forall (fun r => handles_method r (req_method req) = false) routes ->
  req_method req <> "HEAD" ->
  req_method req <> "OPTIONS" ->
  forall options,
    router_next pf req res routes options = done pf req res options.
Proof.
  intros Hall Hhead Hopt.
  apply String.eqb_neq in Hhead, Hopt.
  induction Hall as [|r rest Hr _ IH]; intros options; [reflexivity|].
  rewrite router_next_cons, Hr, Hhead, Hopt. cbn [negb andb].
  destruct (layer_match _ _ _); apply IH.
Qed.

(** A request whose method is neither answered by the routes nor OPTIONS
    goes through the routes to the final handler. *)
Lemma serve_other_method (pf : Platform) (req : Request) :
  Str.lower (req_method req) <> "get" ->
  Str.lower (req_method req) <> "head" ->
  req_method req <> "OPTIONS" ->
  serve pf req = Replied (not_found_reply pf req).
Proof.
  intros Hget Hhead Hopt.
  rewrite serve_unfold, router_next_unhandled.
  - rewrite done_no_options. apply finalhandler_notfound_reply.
  - repeat constructor; apply unhandled_method; assumption.
  - apply not_head_of_lower, Hhead.
  - exact Hopt.
Qed.

(** An OPTIONS request is answered with the methods of the route its path
    matches, and by the final handler when it matches none. *)
Lemma serve_options (pf : Platform) (req : Request) :
  req_method req = "OPTIONS" ->
  serve pf req
  = Replied (if on_a_route req then options_reply pf else not_found_reply pf req).
Proof.
  intros Hm. unfold on_a_route.
  destruct (layer_match _ "/" (getPathname req)) eqn:H1;
    destruct (layer_match _ "/health" (getPathname req)) eqn:H2; cbn [orb];
    rewrite serve_unfold;
    repeat (rewrite router_next_cons, initial_response_app;
            cbn [route_path]; cbv zeta);
    rewrite ?H1, ?H2.
  4: { cbn [router_next]. rewrite done_no_options. apply finalhandler_notfound_reply. }
  all: destruct req as [m u h b]; cbn [req_method] in Hm; subst m;
    vm_compute; reflexivity.
Qed.

(** The answer to every request with an upper-case method token. *)
Lemma serve_cases (pf : Platform) (req : Request) :
  upper_case_method req ->
  serve pf req = Replied (expected_reply pf req).
Proof.
  intros Hu. unfold expected_reply.
  destruct (get_or_head req) eqn:Hg.
  - rewrite serve_get_or_head by assumption.
    destruct (layer_match _ "/" _); [reflexivity|].
    destruct (layer_match _ "/health" _); reflexivity.
  - destruct (String.eqb (req_method req) "OPTIONS") eqn:Ho.
    + apply String.eqb_eq in Ho. rewrite serve_options by assumption.
      cbn [andb]. reflexivity.
    + cbn [andb]. apply String.eqb_neq in Ho.
      destruct (lower_not_get req Hu Hg) as [Hget Hhead].
      apply serve_other_method; assumption.
Qed.

(** ** HEAD, OPTIONS and the other methods *)

(** X1: on the two routes a HEAD request is answered like the GET request
    with the same target and headers: same status, same headers, and no
    body. *)
Theorem head_mirrors_get (pf : Platform) (req : Request) :
  req_method req = "GET" ->
  on_a_route req = true ->
  exists m m',
    serve pf req = Replied m
    /\ serve pf (with_method "HEAD" req) = Replied m'
    /\ msg_status m' = msg_status m
    /\ msg_headers m' = msg_headers m
    /\ msg_body m' = EmptyString.
Proof.
  intros Hm Hr. unfold on_a_route in Hr.
  rewrite (serve_get_or_head pf req) by (apply get_is_get_or_head, Hm).
  rewrite (serve_get_or_head pf (with_method "HEAD" req)) by reflexivity.
  change (getPathname (with_method "HEAD" req)) with (getPathname req).
  unfold reply_to.
  change (revalidates pf (with_method "HEAD" req)) with (revalidates pf req).
  rewrite Hm. cbn [req_method with_method].
  destruct (layer_match _ "/" _).
  - destruct (revalidates pf req anchor); eexists; eexists; repeat split.
  - cbn [orb] in Hr. rewrite Hr.
    destruct (revalidates pf req "ok"); eexists; eexists; repeat split.
Qed.

(** [head_mirrors_get] at GET /health. *)
Lemma head_mirrors_get_witness :
  exists m m',
    serve example_platform plain_health_request = Replied m
    /\ serve example_platform (with_method "HEAD" plain_health_request) = Replied m'
    /\ msg_status m' = msg_status m
    /\ msg_headers m' = msg_headers m
    /\ msg_body m' = EmptyString.
Proof.
  exact (head_mirrors_get example_platform plain_health_request eq_refl eq_refl).
Defined.

(** X2: an OPTIONS request on one of the two routes is answered by the
    router itself, with status 200 and the methods GET,HEAD in the header
    Allow and in the body; no handler of the application runs. *)
Theorem options_lists_methods (pf : Platform) (req : Request) :
  req_method req = "OPTIONS" ->
  on_a_route req = true ->
  exists m,
    serve pf req = Replied m
    /\ msg_status m = 200
    /\ msg_headers m !! "allow" = Some "GET,HEAD"
    /\ msg_body m = "GET,HEAD".
Proof.
  intros Hm Hr. exists (options_reply pf).
  rewrite serve_options, Hr by assumption. repeat split.
Qed.

(** [options_lists_methods] at OPTIONS /health. *)
Lemma options_lists_methods_witness :
  exists m,
    serve example_platform (request "OPTIONS" "/health" []) = Replied m
    /\ msg_status m = 200
    /\ msg_headers m !! "allow" = Some "GET,HEAD"
    /\ msg_body m = "GET,HEAD".
Proof.
  exact (options_lists_methods example_platform (request "OPTIONS" "/health" [])
           eq_refl eq_refl).
Defined.

(** X3: of the requests that Node hands to the application (see
    [emitted_as_request]: CONNECT and the method tokens Node does not know
    are not among them), one with a method other than GET, HEAD and OPTIONS
    (POST, PUT, DELETE, ...) gets the final handler's 404, on the two routes
    as anywhere else: the application answers no other method. *)
Theorem other_methods_not_found (pf : Platform) (req : Request) :
  emitted_as_request req = true ->
  req_method req <> "GET" ->
  req_method req <> "HEAD" ->
  req_method req <> "OPTIONS" ->
  serve pf req = Replied (not_found_reply pf req)
  /\ msg_status (not_found_reply pf req) = 404.
Proof.
  intros He Hget Hhead Hopt. split; [|reflexivity].
  pose proof (emitted_upper_case req He) as Hu.
  assert (get_or_head req = false) as Hg.
  { unfold get_or_head. apply orb_false_iff. split; apply String.eqb_neq; assumption. }
  destruct (lower_not_get req Hu Hg) as [Hlg Hlh].
  apply serve_other_method; assumption.
Qed.

(** [other_methods_not_found] at POST /health, as curl sends it. *)
Lemma other_methods_not_found_witness :
  serve example_platform (curl_request "POST" "/health")
  = Replied (not_found_reply example_platform (curl_request "POST" "/health"))
  /\ msg_status (not_found_reply example_platform (curl_request "POST" "/health"))
     = 404.
Proof.
  apply (other_methods_not_found example_platform (curl_request "POST" "/health"));
    [reflexivity | discriminate | discriminate | discriminate].
Defined.

(** ** The request target *)





(** X5: the route /health is found without regard to the case of the
    letters of the path and with or without one trailing slash: every GET or
    HEAD request whose path is /health or /health/ in lower case gets the
    answer of the handler of /health. *)
Theorem health_path_matching (pf : Platform) (req : Request) :
  get_or_head req = true ->
  Str.lower (getPathname req) = "/health"
  \/ Str.lower (getPathname req) = "/health/" ->
  serve pf req = Replied (reply_to pf req "ok").
Proof.
  intros Hg Hp. rewrite serve_get_or_head by assumption.
  rewrite layer_match_root, layer_match_health.
  destruct Hp as [-> | ->]; reflexivity.
Qed.

(** [health_path_matching] at GET /Health/. *)
Lemma health_path_matching_witness :
  serve example_platform (request "GET" "/Health/" [])
  = Replied (full_reply example_platform "ok" "ok").
Proof.
  exact (health_path_matching example_platform (request "GET" "/Health/" [])
           eq_refl (or_intror eq_refl)).
Defined.

(** ** The order of the routes *)

Ltac expand_router :=
  repeat (rewrite router_next_cons; rewrite ?initial_response_app;
          cbn [route_path]; cbv zeta).

Lemma routes_disjoint (pathname : string) :
  layer_match defaultConfiguration "/" pathname = true ->
  layer_match defaultConfiguration "/health" pathname = false.
Proof.
  rewrite layer_match_root, layer_match_health. intros H.
  apply orb_true_iff in H.
  destruct H as [H | H]; apply String.eqb_eq in H; rewrite H; reflexivity.
Qed.

(** X6: no path matches both routes, so the order of the two [app.get]
    calls is immaterial: the application with the routes registered the
    other way round answers every request as the service does. *)
Theorem registration_order_immaterial (pf : Platform) (req : Request) :
  handle pf (app_swapped pf) req = serve pf req.
Proof.
  rewrite serve_unfold. unfold handle.
  change (settings (app_swapped pf)) with defaultConfiguration.
  change (stack (app_swapped pf))
    with [ {| route_path := "/health"; route_stack := [("get", health_handler pf)] |};
           {| route_path := "/"; route_stack := [("get", root_handler pf)] |} ].
  expand_router.
  destruct (layer_match _ "/" (getPathname req)) eqn:H1;
    destruct (layer_match _ "/health" (getPathname req)) eqn:H2;
    try reflexivity.
  rewrite (routes_disjoint _ H1) in H2. discriminate H2.
Qed.

(** ** Revalidation *)

Lemma contains_append (c : ascii) (a b : string) :
  Str.contains c (a +:+ b) = Str.contains c a || Str.contains c b.
Proof.
  induction a as [|d a IH]; [reflexivity|].
  change (Str.contains c (String d a +:+ b))
    with (Ascii.eqb d c || Str.contains c (a +:+ b)).
  rewrite IH. cbn [Str.contains]. apply orb_assoc.
Qed.

Lemma split_no_separator (c : ascii) (s : string) :
  Str.contains c s = false -> Str.split c s = [s].
Proof.
  induction s as [|d s IH]; intros Hc; [reflexivity|].
  cbn [Str.contains] in Hc. apply orb_false_iff in Hc. destruct Hc as [Hd Hs].
  cbn [Str.split]. rewrite Hd, IH by assumption. reflexivity.
Qed.

Lemma last_is_append (c : ascii) (a : string) :
  Str.last_is c (a +:+ String c EmptyString) = true.
Proof.
  induction a as [|d a IH]; [apply Ascii.eqb_refl|].
  change (String d a +:+ String c EmptyString)
    with (String d (a +:+ String c EmptyString)).
  destruct a as [|e a]; [cbn; apply Ascii.eqb_refl | exact IH].
Qed.

Lemma rtrim_last (p : ascii -> bool) (c : ascii) (s : string) :
  p c = false -> Str.last_is c s = true -> Str.rtrim p s = s.
Proof.
  intros Hp. induction s as [|d s IH]; intros Hl; [reflexivity|].
  cbn [Str.rtrim]. destruct s as [|e s].
  - cbn in Hl. apply Ascii.eqb_eq in Hl. subst d. cbn. rewrite Hp. reflexivity.
  - rewrite IH by exact Hl. cbn [Str.is_empty]. rewrite andb_false_r. reflexivity.
Qed.

(** The tag the service gives the body ok is one token of an If-None-Match
    header when the digest holds no comma. *)
Lemma parseTokenList_health_tag (pf : Platform) :
  Str.contains "," (sha1_base64 pf "ok") = false ->
  parseTokenList (weak_etag pf "ok") = [weak_etag pf "ok"].
Proof.
  intros Hc. unfold parseTokenList.
  rewrite split_no_separator.
  - cbn [map]. f_equal. unfold Str.trim.
    change (Str.ltrim _ (weak_etag pf "ok")) with (weak_etag pf "ok").
    apply (rtrim_last _ "034"); [reflexivity|].
    change (weak_etag pf "ok")
      with (("W/" +:+ Str.dquote +:+ "2-" +:+ sha1_base64 pf "ok")
            +:+ String "034" EmptyString).
    apply last_is_append.
  - change (weak_etag pf "ok")
      with (String "W" (String "/" (String "034" (String "2" (String "-"
              (sha1_base64 pf "ok" +:+ Str.dquote)))))).
    cbn [Str.contains]. rewrite contains_append, Hc. reflexivity.
Qed.

Lemma fresh_own_tag (pf : Platform) (h : gmap string string) (tag : string) :
  h !! "if-none-match" = Some tag ->
  h !! "if-modified-since" = None ->
  match h !! "cache-control" with Some cc => has_no_cache cc | None => false end
  = false ->
  parseTokenList tag = [tag] ->
  Str.is_empty tag = false ->
  String.eqb tag "*" = false ->
  fresh pf h (Some tag) None = true.
Proof.
  intros Hnm Hms Hcc Htok Hne Hstar. unfold fresh.
  rewrite Hnm, Hms, Hcc, Htok. cbn [present negb andb].
  rewrite Hne, Hstar. cbn [negb orb existsb].
  rewrite String.eqb_refl. reflexivity.
Qed.

(** X7: a client that sends back the entity tag it got with the answer to
    GET /health, in If-None-Match and without If-Modified-Since and
    no-cache, is answered 304: the tag of the 200 answer revalidates. *)
Theorem health_etag_round_trip (pf : Platform) (req : Request) (tag : string) :
  Str.contains "," (sha1_base64 pf "ok") = false ->
  msg_headers (full_reply pf "ok" "ok") !! "etag" = Some tag ->
  req_method req = "GET" ->
  getPathname req = "/health" ->
  req_headers req !! "if-none-match" = Some tag ->
  req_headers req !! "if-modified-since" = None ->
  asks_no_cache req = false ->
  serve pf req = Replied (not_modified_reply pf "ok")
  /\ msg_status (not_modified_reply pf "ok") = 304.
Proof.
  intros Hc Htag Hm Hp Hnm Hms Hcc. split; [|reflexivity].
  assert (tag = weak_etag pf "ok") as -> by (injection Htag as <-; reflexivity).
  rewrite serve_get_health by assumption.
  apply f_equal, reply_to_not_modified. unfold revalidates.
  apply fresh_own_tag; try assumption.
  - apply parseTokenList_health_tag, Hc.
  - reflexivity.
  - reflexivity.
Qed.

(** [health_etag_round_trip] with the tag of the example platform. *)
Lemma health_etag_round_trip_witness :
  serve example_platform
    (request "GET" "/health" [("if-none-match", weak_etag example_platform "ok")])
  = Replied (not_modified_reply example_platform "ok")
  /\ msg_status (not_modified_reply example_platform "ok") = 304.
Proof.
  apply (health_etag_round_trip example_platform
           (request "GET" "/health" [("if-none-match", weak_etag example_platform "ok")])
           (weak_etag example_platform "ok"));
    reflexivity.
Defined.

Lemma revalidates_no_cache (pf : Platform) (req : Request) (body : string) :
  asks_no_cache req = true -> revalidates pf req body = false.
Proof.
  unfold asks_no_cache, revalidates, fresh. intros ->.
  destruct (negb _ && negb _); reflexivity.
Qed.

Lemma revalidates_modified_since (pf : Platform) (req : Request) (body : string) :
  present (req_headers req !! "if-modified-since") = true ->
  revalidates pf req body = false.
Proof.
  unfold revalidates, fresh. intros Hms.
  rewrite Hms. cbn [negb andb].
  destruct (req_headers req !! "if-modified-since") as [ms|]; [|discriminate Hms].
  cbn [present] in Hms. rewrite Hms. cbn [present negb orb andb].
  destruct (match req_headers req !! "cache-control" with
            | Some cc => has_no_cache cc | None => false end); [reflexivity|].
  destruct (match req_headers req !! "if-none-match" with
            | Some nm => _ | None => false end); reflexivity.
Qed.

(** X8: a GET request whose Cache-Control header has the item no-cache is
    answered in full, 200 with the body, whatever conditional headers it
    carries. *)
Theorem no_cache_is_answered_in_full (pf : Platform) (req : Request) :
  req_method req = "GET" ->
  asks_no_cache req = true ->
  (getPathname req = "/health" -> serve pf req = Replied (full_reply pf "ok" "ok"))
  /\ (getPathname req = "/" -> serve pf req = Replied (full_reply pf anchor anchor)).
Proof.
  intros Hm Hcc. split; intros Hp.
  - rewrite serve_get_health by assumption.
    rewrite reply_to_full; [reflexivity | assumption |].
    apply revalidates_no_cache, Hcc.
  - rewrite serve_get_root by assumption.
    rewrite reply_to_full; [reflexivity | assumption |].
    apply revalidates_no_cache, Hcc.
Qed.

(** [no_cache_is_answered_in_full] at a GET /health with If-None-Match: *
    and Cache-Control: max-age=0, no-cache. *)
Lemma no_cache_is_answered_in_full_witness :
  serve example_platform
    (request "GET" "/health"
       [("if-none-match", "*"); ("cache-control", "max-age=0, no-cache")])
  = Replied (full_reply example_platform "ok" "ok").
Proof.
  apply (no_cache_is_answered_in_full example_platform
           (request "GET" "/health"
              [("if-none-match", "*"); ("cache-control", "max-age=0, no-cache")])
           eq_refl eq_refl).
  reflexivity.
Defined.

(** X9: the handlers set no Last-Modified header, so a GET request that
    carries If-Modified-Since is never answered 304, not even with a
    matching If-None-Match: it gets the full answer. *)
Theorem modified_since_is_answered_in_full (pf : Platform) (req : Request) :
  req_method req = "GET" ->
  present (req_headers req !! "if-modified-since") = true ->
  (getPathname req = "/health" -> serve pf req = Replied (full_reply pf "ok" "ok"))
  /\ (getPathname req = "/" -> serve pf req = Replied (full_reply pf anchor anchor)).
Proof.
  intros Hm Hms. split; intros Hp.
  - rewrite serve_get_health by assumption.
    rewrite reply_to_full; [reflexivity | assumption |].
    apply revalidates_modified_since, Hms.
  - rewrite serve_get_root by assumption.
    rewrite reply_to_full; [reflexivity | assumption |].
    apply revalidates_modified_since, Hms.
Qed.

(** [modified_since_is_answered_in_full] at a GET / with If-None-Match: *
    and an If-Modified-Since date. *)
Lemma modified_since_is_answered_in_full_witness :
  serve example_platform
    (request "GET" "/"
       [("if-none-match", "*");
        ("if-modified-since", "Mon, 02 Nov 2026 00:00:00 GMT")])
  = Replied (full_reply example_platform anchor anchor).
Proof.
  apply (modified_since_is_answered_in_full example_platform
           (request "GET" "/"
              [("if-none-match", "*");
               ("if-modified-since", "Mon, 02 Nov 2026 00:00:00 GMT")])
           eq_refl eq_refl).
  reflexivity.
Defined.

(** ** What every answer has *)

Lemma sendOptionsResponse_status (pf : Platform) (req : Request) (a : Settings)
    (options : list string) :
  exists m,
    settle pf req (sendOptionsResponse pf options (initial_response a req)) = Replied m
    /\ (msg_status m = 200 \/ msg_status m = 304).
Proof.
  unfold sendOptionsResponse.
  destruct (set_ready req a 200 "Allow" (Str.join "," options) _
              (initial_response_ready a req)) as (r1 & -> & H1).
  cbn [bind].
  destruct (send_ready pf req a 200 (Str.join "," options) r1 H1)
    as (r2 & m & -> & Hm & Hs).
  exists m. split; [apply settle_sent, Hm|].
  destruct Hs as [Hs | (Hs & _)]; [left | right]; exact Hs.
Qed.

(** By induction on the routes: what holds of the answers of the handlers
    and of the end of the stack holds of the answer of the router. *)
Lemma router_next_invariant (P : HttpMessage -> Prop) (pf : Platform)
    (req : Request) (res : ServerResponse) (routes : list Route) :
  Forall (fun r => forall c,
            route_dispatch r req res = Some c ->
            exists m, settle pf req c = Replied m /\ P m) routes ->
  (forall options, exists m, done pf req res options = Replied m /\ P m) ->
  forall options,
  exists m, router_next pf req res routes options = Replied m /\ P m.
Proof.
  intros Hall Hdone.
  induction Hall as [|r rest Hr _ IH]; intros options; [apply Hdone|].
  rewrite router_next_cons.
  destruct (layer_match _ _ _); [|apply IH].
  cbv zeta. destruct (_ && negb _); [apply IH|].
  destruct (route_dispatch r req res) as [c|] eqn:Hc; [|apply IH].
  apply Hr. reflexivity.
Qed.

(** X10: every request that Node hands to the application (see
    [emitted_as_request]) is answered by it, and with one of three statuses:
    200, 304 or 404.  The application never answers with a 5xx status, never
    leaves such a request without answer and never drops its connection. *)
Theorem status_is_200_304_or_404 (pf : Platform) (req : Request) :
  emitted_as_request req = true ->
  exists m,
    serve pf req = Replied m
    /\ (msg_status m = 200 \/ msg_status m = 304 \/ msg_status m = 404).
Proof.
  intros _. rewrite serve_unfold. apply router_next_invariant.
  - repeat constructor; intros c Hc; apply single_route_dispatch in Hc; subst c.
    + destruct (root_handler_total pf req req defaultConfiguration)
        as (r & m & -> & Hm & Hs).
      exists m. split; [apply settle_sent, Hm|].
      destruct Hs as [Hs | (Hs & _)]; auto.
    + destruct (health_handler_total pf req req defaultConfiguration)
        as (r & m & -> & Hm & Hs).
      exists m. split; [apply settle_sent, Hm|].
      destruct Hs as [Hs | (Hs & _)]; auto.
  - intros options. unfold done. destruct (_ && _).
    + destruct (sendOptionsResponse_status pf req defaultConfiguration options)
        as (m & Hm & Hs).
      exists m. split; [exact Hm|]. destruct Hs; auto.
    + rewrite finalhandler_notfound_reply. eexists. split; [reflexivity|].
      right. right. reflexivity.
Qed.

(** [status_is_200_304_or_404] at PUT /health?x=1, as curl sends it. *)
Lemma status_is_200_304_or_404_witness :
  exists m,
    serve example_platform (curl_request "PUT" "/health?x=1") = Replied m
    /\ (msg_status m = 200 \/ msg_status m = 304 \/ msg_status m = 404).
Proof.
  exact (status_is_200_304_or_404 example_platform (curl_request "PUT" "/health?x=1")
           eq_refl).
Defined.

Lemma expected_reply_cases (P : HttpMessage -> Prop) (pf : Platform) (req : Request) :
  P (full_reply pf anchor anchor) ->
  P (full_reply pf anchor EmptyString) ->
  P (full_reply pf "ok" "ok") ->
  P (full_reply pf "ok" EmptyString) ->
  P (not_modified_reply pf anchor) ->
  P (not_modified_reply pf "ok") ->
  P (options_reply pf) ->
  P (not_found_reply pf req) ->
  P (expected_reply pf req).
Proof.
  intros. unfold expected_reply, reply_to.
  destruct (get_or_head req); [|destruct (_ && _); assumption].
  destruct (layer_match _ "/" _).
  - destruct (revalidates pf req anchor); [assumption|].
    destruct (String.eqb (req_method req) "HEAD"); assumption.
  - destruct (layer_match _ "/health" _); [|assumption].
    destruct (revalidates pf req "ok"); [assumption|].
    destruct (String.eqb (req_method req) "HEAD"); assumption.
Qed.

(** X11: whenever the service sends a body, the header Content-Length of
    the answer states the length of that body; an answer without
    Content-Length has no body. *)
Theorem content_length_states_body (pf : Platform) (req : Request) :
  upper_case_method req ->
  exists m,
    serve pf req = Replied m
    /\ (msg_body m = EmptyString
        \/ msg_headers m !! "content-length"
           = Some (JS.String_of_nat (String.length (msg_body m))))
    /\ (msg_headers m !! "content-length" = None -> msg_body m = EmptyString).
Proof.
  intros Hu. exists (expected_reply pf req).
  split; [apply serve_cases, Hu|].
  apply expected_reply_cases;
    try (split; [first [left; reflexivity | right; reflexivity]
                | intros H; first [reflexivity | discriminate H]]).
  unfold not_found_reply.
  destruct (String.eqb (req_method req) "HEAD");
    (split; [first [left; reflexivity | right; reflexivity]
            | intros H; first [reflexivity | discriminate H]]).
Qed.

(** [content_length_states_body] at GET /nope. *)
Lemma content_length_states_body_witness :
  exists m,
    serve example_platform nope_request = Replied m
    /\ msg_headers m !! "content-length" = Some "143"
    /\ String.length (msg_body m) = 143%nat.
Proof.
  destruct (content_length_states_body example_platform nope_request eq_refl)
    as (m & Hs & _ & _).
  exists m. split; [exact Hs|].
  rewrite nope_is_not_found in Hs. injection Hs as <-. split; reflexivity.
Defined.

(** X12: every answer of the application, that is the answer to every
    request that Node hands to it (see [emitted_as_request]; the answers
    Node gives by itself, 400 and 417, are not the application's), names the
    framework: it carries the header X-Powered-By: Express, which the
    application never disables. *)
Theorem x_powered_by_on_every_answer (pf : Platform) (req : Request) :
  emitted_as_request req = true ->
  exists m,
    serve pf req = Replied m
    /\ msg_headers m !! "x-powered-by" = Some "Express".
Proof.
  intros He. exists (expected_reply pf req).
  split; [apply serve_cases, emitted_upper_case, He|].
  apply expected_reply_cases; reflexivity.
Qed.

(** [x_powered_by_on_every_answer] at DELETE /, as curl sends it. *)
Lemma x_powered_by_on_every_answer_witness :
  exists m,
    serve example_platform (curl_request "DELETE" "/") = Replied m
    /\ msg_headers m !! "x-powered-by" = Some "Express".
Proof.
  exact (x_powered_by_on_every_answer example_platform (curl_request "DELETE" "/")
           eq_refl).
Defined.

(** ** The deployment *)

(** X13: once the process listens, the liveness probe of the deployment, a
    GET on /health, succeeds whenever Node hands the request of the prober
    to the application (see [emitted_as_request]: a request with a Host
    field and without Expect field, as the kubelet sends it), whatever its
    other headers: the listener of the process is the application, whose
    answer is 200 or 304, both of which a probe counts as success. *)
Theorem liveness_probe_succeeds (pf : Platform) (env : gmap string string)
    (bindable : JS.value -> bool) (req : Request) :
  bindable (port env) = true ->
  emitted_as_request req = true ->
  req_method req = "GET" ->
  getPathname req = liveness_probe_path ->
  exists onRequest,
    run_process (main pf env bindable) = Listening (port env) onRequest
    /\ probe_succeeds (onRequest req) = true.
Proof.
  intros Hb _ Hm Hp. exists (serve pf).
  split; [rewrite main_process, Hb; reflexivity|].
  rewrite serve_get_health by assumption.
  unfold reply_to. destruct (revalidates pf req "ok"); reflexivity.
Qed.

(** [liveness_probe_succeeds] in the container, for the probe of the
    kubelet. *)
Lemma liveness_probe_succeeds_witness :
  exists onRequest,
    run_process (main example_platform dockerfile_env (fun _ => true))
    = Listening (JS.Str "6969") onRequest
    /\ probe_succeeds (onRequest probe_request) = true.
Proof.
  exact (liveness_probe_succeeds example_platform dockerfile_env (fun _ => true)
           probe_request eq_refl eq_refl eq_refl eq_refl).
Defined.

(** X14: the service and the variant of the readme, whose default is 3000,
    listen on the same value exactly when PORT is set to a non-empty string,
    as in the container of the Dockerfile; with PORT unset or empty they
    listen on 6969 and on 3000. *)
Theorem ports_of_the_variants (env : gmap string string) :
  (port env = Readme.port env
   <-> exists v, env !! "PORT" = Some v /\ Str.is_empty v = false)
  /\ port dockerfile_env = Readme.port dockerfile_env
  /\ (JS.ToBoolean (env_get env "PORT") = false ->
      port env = JS.Num 6969 /\ Readme.port env = JS.Num 3000).
Proof.
  unfold port, Readme.port, env_get, JS.or. split; [|split; [reflexivity|]].
  - destruct (env !! "PORT") as [v|]; cbn [JS.ToBoolean].
    + destruct (Str.is_empty v) eqn:He; cbn [negb].
      * split; [discriminate | intros (w & Hw & Hne); congruence].
      * split; [intros _; exists v; split; [reflexivity | exact He] | reflexivity].
    + split; [discriminate | intros (w & Hw & _); discriminate Hw].
  - intros Hf. rewrite Hf. split; reflexivity.
Qed.

(** ** The variant of the readme *)

Lemma readme_stringify (pid : Z) :
  JSON.stringify [("message", JSON.JString "Hello from demo-app!");
                  ("pid", JSON.JNumber pid)]
  = Readme.hello pid.
Proof. reflexivity. Qed.

Lemma readme_root_handler_reply (pf : Platform) (pid : Z) (q req : Request) :
  get_or_head req = true ->
  settle pf req
    (Readme.root_handler pf pid q (initial_response defaultConfiguration req))
  = Replied (Readme.root_reply pf pid req).
Proof.
  intros Hm. destruct req as [m u h b]. unfold get_or_head in Hm. simpl in Hm.
  apply orb_true_iff in Hm.
  unfold Readme.root_handler, Readme.res_json. rewrite readme_stringify.
  destruct Hm as [Hm | Hm]; apply String.eqb_eq in Hm; subst m;
    unfold Readme.root_reply, Readme.json_reply, not_modified_reply, weak_etag,
      entitytag, revalidates, send, req_fresh;
    generalize (fresh pf) (Readme.hello pid); intros f body; vm_compute;
    destruct (f _ _ _); reflexivity.
Qed.

Lemma readme_serve_unfold (pf : Platform) (pid : Z) (req : Request) :
  Readme.serve pf pid req
  = router_next pf req (initial_response defaultConfiguration req)
      [ {| route_path := "/"; route_stack := [("get", Readme.root_handler pf pid)] |};
        {| route_path := "/health";
           route_stack := [("get", Readme.health_handler pf)] |} ]
      [].
Proof. reflexivity. Qed.

Lemma readme_serve_root (pf : Platform) (pid : Z) (req : Request) :
  req_method req = "GET" -> getPathname req = "/" ->
  Readme.serve pf pid req = Replied (Readme.root_reply pf pid req).
Proof.
  intros Hm Hp. pose proof (get_is_get_or_head req Hm) as Hg.
  rewrite readme_serve_unfold, router_next_cons, initial_response_app.
  cbn [route_path]. rewrite Hp.
  change (layer_match defaultConfiguration "/" "/") with true. cbv iota zeta.
  rewrite get_route_handles, get_route_dispatch by assumption.
  cbn [negb andb]. apply readme_root_handler_reply, Hg.
Qed.

Lemma string_length_append (a b : string) :
  String.length (a +:+ b) = (String.length a + String.length b)%nat.
Proof.
  induction a as [|c a IH]; [reflexivity|].
  change (String.length (String c a +:+ b)) with (S (String.length (a +:+ b))).
  rewrite IH. reflexivity.
Qed.

(** Strings that agree after the same suffix is appended are equal. *)
Lemma append_cancel_r (t a b : string) : a +:+ t = b +:+ t -> a = b.
Proof.
  revert b. induction a as [|c a IH]; intros [|d b] H.
  - reflexivity.
  - exfalso. apply (f_equal String.length) in H.
    rewrite !string_length_append in H. cbn [String.length] in H. lia.
  - exfalso. apply (f_equal String.length) in H.
    rewrite !string_length_append in H. cbn [String.length] in H. lia.
  - change (String c (a +:+ t) = String d (b +:+ t)) in H.
    injection H as -> H. f_equal. apply IH, H.
Qed.

Lemma to_int_not_nil (z : Z) :
  Z.to_int z <> Decimal.Pos Decimal.Nil /\ Z.to_int z <> Decimal.Neg Decimal.Nil.
Proof.
  destruct z as [|p|p]; cbn; split; try discriminate;
    intros H; injection H as H; exact (DecimalPos.Unsigned.to_uint_nonnil p H).
Qed.

(** The decimal text of an integer determines it. *)
Lemma ToString_Num_inj (n n' : Z) :
  JS.ToString (JS.Num n) = JS.ToString (JS.Num n') -> n = n'.
Proof.
  cbn [JS.ToString]. intros H.
  apply (f_equal DecimalString.NilZero.int_of_string) in H.
  destruct (to_int_not_nil n) as [H1 H2]. destruct (to_int_not_nil n') as [H3 H4].
  rewrite !DecimalString.NilZero.isi in H by assumption.
  injection H as H. apply DecimalZ.to_int_inj, H.
Qed.

Lemma hello_inj (pid pid' : Z) : Readme.hello pid = Readme.hello pid' -> pid = pid'.
Proof.
  unfold Readme.hello. intros H. vm_compute in H.
  repeat (injection H as H).
  apply ToString_Num_inj. cbn [JS.ToString].
  apply (append_cancel_r "}"). exact H.
Qed.

(** X15: the handler of / in the readme's variant answers a GET that is
    not conditional with status 200, the content type application/json;
    charset=utf-8, and the JSON text of an object with the message and the
    id of the process. *)
Theorem readme_root_is_json (pf : Platform) (pid : Z) (req : Request) :
  req_method req = "GET" ->
  getPathname req = "/" ->
  conditional req = false ->
  exists m,
    Readme.serve pf pid req = Replied m
    /\ msg_status m = 200
    /\ msg_headers m !! "content-type" = Some "application/json; charset=utf-8"
    /\ msg_body m
       = JSON.stringify [("message", JSON.JString "Hello from demo-app!");
                         ("pid", JSON.JNumber pid)].
Proof.
  intros Hm Hp Hc. exists (Readme.root_reply pf pid req).
  split; [apply readme_serve_root; assumption|].
  unfold Readme.root_reply.
  rewrite revalidates_unconditional by assumption. rewrite Hm.
  repeat split.
Qed.

(** [readme_root_is_json] for the process 17. *)
Lemma readme_root_is_json_witness :
  exists m,
    Readme.serve example_platform 17 plain_root_request = Replied m
    /\ msg_status m = 200
    /\ msg_headers m !! "content-type" = Some "application/json; charset=utf-8"
    /\ msg_body m = Readme.hello 17.
Proof.
  exact (readme_root_is_json example_platform 17 plain_root_request
           eq_refl eq_refl eq_refl).
Defined.

(** X16: in the readme's variant the answer to GET / tells the processes
    apart: two processes with different ids never give the same answer to a
    GET / that is not conditional. *)
Theorem readme_root_identifies_process (pf : Platform) (pid pid' : Z)
    (req : Request) :
  req_method req = "GET" ->
  getPathname req = "/" ->
  conditional req = false ->
  pid <> pid' ->
  Readme.serve pf pid req <> Readme.serve pf pid' req.
Proof.
  intros Hm Hp Hc Hpid Heq. apply Hpid.
  rewrite !readme_serve_root in Heq by assumption.
  unfold Readme.root_reply in Heq.
  rewrite !revalidates_unconditional in Heq by assumption.
  rewrite Hm in Heq. cbn [String.eqb] in Heq.
  apply (f_equal (fun o => match o with
                           | Replied m => msg_body m
                           | Pending | Destroyed => EmptyString
                           end)) in Heq.
  apply hello_inj. exact Heq.
Qed.

(** [readme_root_identifies_process] for the processes 17 and 18. *)
Lemma readme_root_identifies_process_witness :
  Readme.serve example_platform 17 plain_root_request
  <> Readme.serve example_platform 18 plain_root_request.
Proof.
  apply (readme_root_identifies_process example_platform 17 18 plain_root_request);
    [reflexivity | reflexivity | reflexivity | discriminate].
Defined.
